(** * Main window controller of Vencord Desktop (src/main/mainWindow.ts)

    A shallow embedding of the module that creates the single application
    window and wires it to the tray icon, the application menu, the settings
    store and the bounds persistence, followed by the properties of the
    specification that were checked against it.

    The module is event driven.  Its closures are defunctionalised: every
    [win.on(...)], [tray.on(...)], [addChangeListener(...)] and menu [click]
    site of the source becomes a constructor, the objects the closures
    capture become references into explicit heaps, and the toolkit's event
    loop becomes the function [step]. *)

From Stdlib Require Import ZArith Bool Lia.
From stdpp Require Import base option list strings.

Open Scope Z_scope.
Open Scope string_scope.
Open Scope list_scope.

(** ** Values of the settings stores

    A setting typed [boolean | undefined] is an [option bool]: [None] is an
    absent key. *)

(** [v] used as a condition ([if (v)], [v ? a : b], [!v]). *)
Definition truthy (v : option bool) : bool :=
  match v with Some true => true | _ => false end.

(** [v === false] *)
Definition is_false (v : option bool) : bool :=
  match v with Some false => true | _ => false end.

(** [v !== true] *)
Definition is_not_true (v : option bool) : bool :=
  match v with Some true => false | _ => true end.

(** [v ?? d] *)
Definition nullish {A} (v : option A) (d : A) : A :=
  match v with Some a => a | None => d end.

(** Electron's [Rectangle]. *)
Record Rectangle := mkRectangle {
  rx : Z; ry : Z; rwidth : Z; rheight : Z
}.

(** The persisted [windowBounds]; the source reads each field defensively. *)
Record StoredBounds := mkStoredBounds {
  sb_x : option Z; sb_y : option Z; sb_width : option Z; sb_height : option Z
}.

Definition stored_of_rect (r : Rectangle) : StoredBounds :=
  mkStoredBounds (Some (rx r)) (Some (ry r)) (Some (rwidth r)) (Some (rheight r)).

(** [Settings.store] *)
Record SettingsStore := mkSettings {
  s_tray : option bool;
  s_minimizeToTray : option bool;
  s_disableMinSize : option bool;
  s_staticTitle : option bool;
  s_discordBranch : option string;
  s_windowBounds : option StoredBounds;
  s_maximized : option bool;
  s_minimized : option bool
}.

(** [VencordSettings.store] *)
Record VencordStore := mkVencord {
  v_winCtrlQ : option bool;
  v_frameless : option bool;
  v_macosTranslucency : option bool
}.

(** ** Menus *)

(** The [click] closures of the two menu templates. *)
Inductive Click :=
  | ClickShowWin          (* win.show() *)
  | ClickAbout            (* createAboutWindow *)
  | ClickUpdate           (* await downloadVencordFiles(); relaunch; quit *)
  | ClickRelaunch         (* app.relaunch(); app.quit() *)
  | ClickTrayQuit         (* isQuitting = true; app.quit() *)
  | ClickQuit             (* app.quit() *)
  | ClickQuickSwitcher.   (* win.webContents.executeJavaScript(...) *)

(** One entry of a menu template; an omitted property is [None]. *)
Record ItemTemplate := mkTemplate {
  t_label : option string;
  t_type : option string;
  t_accelerator : option string;
  t_enabled : option bool;
  t_visible : option bool;
  t_role : option string;
  t_toolTip : option string;
  t_click : option Click
}.

Definition template0 : ItemTemplate :=
  mkTemplate None None None None None None None None.

(** A built [MenuItem]; the toolkit defaults [enabled] and [visible] to
    true. *)
Record MenuItem := mkItem {
  mi_label : option string;
  mi_type : option string;
  mi_accelerator : option string;
  mi_enabled : bool;
  mi_visible : bool;
  mi_role : option string;
  mi_toolTip : option string;
  mi_click : option Click
}.

Definition build_item (t : ItemTemplate) : MenuItem :=
  mkItem (t_label t) (t_type t) (t_accelerator t)
         (nullish (t_enabled t) true) (nullish (t_visible t) true)
         (t_role t) (t_toolTip t) (t_click t).

(** [Menu.buildFromTemplate] on a flat template. *)
Definition buildFromTemplate (ts : list ItemTemplate) : list MenuItem :=
  map build_item ts.

Definition set_enabled (b : bool) (i : MenuItem) : MenuItem :=
  mkItem (mi_label i) (mi_type i) (mi_accelerator i) b (mi_visible i)
         (mi_role i) (mi_toolTip i) (mi_click i).

(** The template of [initTray], lines 27-64. *)
Definition trayTemplate : list ItemTemplate :=
  [ mkTemplate (Some "Open") None None (Some false) None None None (Some ClickShowWin);
    mkTemplate (Some "About") None None None None None None (Some ClickAbout);
    mkTemplate (Some "Update Vencord") None None None None None None (Some ClickUpdate);
    mkTemplate None (Some "separator") None None None None None None;
    mkTemplate (Some "Relaunch") None None None None None None (Some ClickRelaunch);
    mkTemplate (Some "Quit Vencord Desktop") None None None None None None (Some ClickTrayQuit) ].

(** A top-level entry of the application menu: a role, and for the first
    entry a label and a submenu. *)
Record TopTemplate := mkTop {
  top_label : option string;
  top_role : option string;
  top_submenu : list ItemTemplate
}.

Record TopItem := mkTopItem {
  ti_label : option string;
  ti_role : option string;
  ti_submenu : list MenuItem
}.

Definition build_top (t : TopTemplate) : TopItem :=
  mkTopItem (top_label t) (top_role t) (buildFromTemplate (top_submenu t)).

(** The submenu of the "Vencord Desktop" entry, lines 88-154. *)
Definition appSubmenuTemplate (isWindows wantCtrlQ : bool) : list ItemTemplate :=
  [ mkTemplate (Some "About Vencord Desktop") None None None None None None (Some ClickAbout);
    mkTemplate (Some "Force Update Vencord") None None None None None
      (Some "Vencord Desktop will automatically restart after this operation")
      (Some ClickUpdate);
    mkTemplate (Some "Relaunch") None (Some "CmdOrCtrl+Shift+R") None None None None
      (Some ClickRelaunch);
    mkTemplate (Some "Quit") None
      (if wantCtrlQ then Some "CmdOrCtrl+Q" else None)
      None (Some (negb isWindows)) (Some "quit") None (Some ClickQuit);
    mkTemplate (Some "Quit") None
      (if isWindows then Some "Alt+F4" else None)
      None (Some isWindows) (Some "quit") None (Some ClickQuit);
    mkTemplate (Some "Zoom in (hidden, hack for Qwertz and others)") None
      (Some "CmdOrCtrl+=") None (Some false) (Some "zoomIn") None None;
    mkTemplate (Some "Quit") None (Some "CmdOrCtrl+Q") None (Some false) None None
      (Some ClickQuit);
    mkTemplate (Some "Quick Switcher") None (Some "CmdOrCtrl+T") None None None None
      (Some ClickQuickSwitcher) ].

(** The menu [initMenuBar] installs, lines 80-163.  [isWindows] is
    [process.platform === "win32"]. *)
Definition initMenuBar (isWindows : bool) (vs : VencordStore) : list TopItem :=
  let wantCtrlQ := negb isWindows || truthy (v_winCtrlQ vs) in
  map build_top
    [ mkTop (Some "Vencord Desktop") (Some "appMenu")
            (appSubmenuTemplate isWindows wantCtrlQ);
      mkTop None (Some "fileMenu") [];
      mkTop None (Some "editMenu") [];
      mkTop None (Some "viewMenu") [];
      mkTop None (Some "windowMenu") [] ].

(** The items of the first top-level entry. *)
Definition appSubmenu (isWindows : bool) (vs : VencordStore) : list MenuItem :=
  match initMenuBar isWindows vs with
  | top :: _ => ti_submenu top
  | [] => []
  end.

Definition is_quit (i : MenuItem) : bool :=
  bool_decide (mi_label i = Some "Quit").

(** The Quit items a user can see, and the ones hidden from the menu. *)
Definition visibleQuitItems (m : list MenuItem) : list MenuItem :=
  List.filter (fun i => is_quit i && mi_visible i) m.

Definition hiddenQuitItems (m : list MenuItem) : list MenuItem :=
  List.filter (fun i => is_quit i && negb (mi_visible i)) m.

(** ** The loaded URL, lines 279-284 *)

Definition subdomain (s : SettingsStore) : string :=
  if bool_decide (s_discordBranch s = Some "canary")
     || bool_decide (s_discordBranch s = Some "ptb")
  then nullish (s_discordBranch s) "undefined" +:+ "."
  else "".

Definition loadedURL (s : SettingsStore) : string :=
  "https://" +:+ subdomain s +:+ "discord.com/app".

(** ** Window construction options *)

(** The part of [BrowserWindowConstructorOptions] that depends on settings
    or on the window's later behaviour; an omitted option is [None].  (The
    literal [webPreferences], [icon] and [autoHideMenuBar] entries feed
    nothing below and are left out.) *)
Record WindowOptions := mkOptions {
  o_show : option bool;
  o_frame : option bool;
  o_title : option string;
  o_vibrancy : option string;
  o_backgroundColor : option string;
  o_width : option Z;
  o_height : option Z;
  o_x : option Z;
  o_y : option Z;
  o_minWidth : option Z;
  o_minHeight : option Z
}.

Definition options0 : WindowOptions :=
  mkOptions None None None None None None None None None None None.

(** [{ ...a, ...b }]: the properties of [b] override those of [a]. *)
Definition spread (a b : WindowOptions) : WindowOptions :=
  let pick {A} (f : WindowOptions -> option A) :=
    match f b with Some v => Some v | None => f a end in
  mkOptions (pick o_show) (pick o_frame) (pick o_title) (pick o_vibrancy)
            (pick o_backgroundColor) (pick o_width) (pick o_height)
            (pick o_x) (pick o_y) (pick o_minWidth) (pick o_minHeight).

Definition with_pos (x y : Z) (o : WindowOptions) : WindowOptions :=
  mkOptions (o_show o) (o_frame o) (o_title o) (o_vibrancy o) (o_backgroundColor o)
            (o_width o) (o_height o) (Some x) (Some y) (o_minWidth o) (o_minHeight o).

Definition with_min (w h : Z) (o : WindowOptions) : WindowOptions :=
  mkOptions (o_show o) (o_frame o) (o_title o) (o_vibrancy o) (o_backgroundColor o)
            (o_width o) (o_height o) (o_x o) (o_y o) (Some w) (Some h).

Section MainWindow.

(** The constants of ./constants, which is not part of the sources at
    hand. *)
Variables DEFAULT_WIDTH DEFAULT_HEIGHT MIN_WIDTH MIN_HEIGHT : Z.

(** [getWindowBoundsOptions], lines 165-184. *)
Definition getWindowBoundsOptions (s : SettingsStore) : WindowOptions :=
  let b := nullish (s_windowBounds s) (mkStoredBounds None None None None) in
  let options :=
    mkOptions None None None None None
              (Some (nullish (sb_width b) DEFAULT_WIDTH))
              (Some (nullish (sb_height b) DEFAULT_HEIGHT))
              None None None None in
  let options :=
    match sb_x b, sb_y b with
    | Some x, Some y => with_pos x y options
    | _, _ => options
    end in
  if negb (truthy (s_disableMinSize s))
  then with_min MIN_WIDTH MIN_HEIGHT options
  else options.

(** The argument of [new BrowserWindow], lines 236-256. *)
Definition windowOptions (s : SettingsStore) (vs : VencordStore) : WindowOptions :=
  let base :=
    mkOptions (Some false) (Some (is_not_true (v_frameless vs)))
              None None None None None None None None None in
  let title :=
    if truthy (s_staticTitle s)
    then mkOptions None None (Some "Vencord") None None None None None None None None
    else options0 in
  let translucency :=
    if truthy (v_macosTranslucency vs)
    then mkOptions None None None (Some "sidebar") (Some "#ffffff00")
                   None None None None None None
    else options0 in
  spread (spread (spread base title) translucency) (getWindowBoundsOptions s).


(** ** The window, the tray and the module state *)

(** The closures registered with [win.on]; one type per event, as each event
    has its own listener array. *)
Inductive CloseListener := HideToTray.            (* lines 258-265 *)
Inductive TitleListener := KeepTitle.             (* line 267 *)
Inductive StateListener := SaveState.             (* lines 187-190 *)
Inductive BoundsListener := SaveBounds.           (* lines 196-198 *)

Record WinListeners := mkListeners {
  on_close : list CloseListener;
  on_page_title_updated : list TitleListener;
  on_maximize : list StateListener;
  on_minimize : list StateListener;
  on_unmaximize : list StateListener;
  on_resize : list BoundsListener;
  on_move : list BoundsListener;
  (* the closures of lines 71-73 and 75-77, each holding its [trayMenu] *)
  on_show : list nat;
  on_hide : list nat
}.

(** The toolkit's window object, as far as the module reads or writes it. *)
Record Window := mkWindow {
  w_visible : bool;
  w_destroyed : bool;
  w_bounds : Rectangle;
  w_minWidth : Z;
  w_minHeight : Z;
  w_maximized : bool;
  w_minimized : bool;
  w_frame : bool;
  w_title : option string;
  w_vibrancy : option string;
  w_backgroundColor : option string;
  w_userAgent : option string;
  w_url : option string;
  w_listeners : WinListeners
}.

(** Where the process runs: the platform test of line 81 and the place the
    toolkit gives a window that is constructed without a position. *)
Record Env := mkEnv {
  env_isWindows : bool;
  env_x : Z;
  env_y : Z
}.

(** The toolkit positions a window by its options only when both
    coordinates are given. *)
Definition initialPosition (env : Env) (o : WindowOptions) : Z * Z :=
  match o_x o, o_y o with
  | Some x, Some y => (x, y)
  | _, _ => (env_x env, env_y env)
  end.

(** [new BrowserWindow(o)] with the toolkit's documented defaults. *)
Definition newBrowserWindow (env : Env) (o : WindowOptions) : Window :=
  mkWindow (nullish (o_show o) true) false
           (mkRectangle (initialPosition env o).1 (initialPosition env o).2
                        (nullish (o_width o) 800) (nullish (o_height o) 600))
           (nullish (o_minWidth o) 0) (nullish (o_minHeight o) 0)
           false false
           (nullish (o_frame o) true) (o_title o) (o_vibrancy o) (o_backgroundColor o)
           None None
           (mkListeners [] [] [] [] [] [] [] [] []).

(** A [Tray] object. *)
Record Tray := mkTray {
  tr_toolTip : option string;
  tr_contextMenu : option nat;
  tr_on_click : list Click;
  tr_destroyed : bool
}.

Definition destroy_tray (t : Tray) : Tray :=
  mkTray (tr_toolTip t) (tr_contextMenu t) (tr_on_click t) true.

(** Keys of [Settings.store] and [VencordSettings.store] that hold a
    boolean. *)
Inductive SKey :=
  KTray | KMinimizeToTray | KDisableMinSize | KStaticTitle | KMaximized | KMinimized.

Inductive VKey := KWinCtrlQ | KFrameless | KMacosTranslucency.

#[global] Instance SKey_eq_dec : EqDecision SKey.
Proof. solve_decision. Defined.
#[global] Instance VKey_eq_dec : EqDecision VKey.
Proof. solve_decision. Defined.

(** The closures registered with [addChangeListener], lines 205-232. *)
Inductive ChangeListener :=
  | OnTray               (* lines 205-208 *)
  | OnDisableMinSize     (* lines 209-222 *)
  | OnMacosTranslucency. (* lines 224-232 *)

(** Assignments to [Settings.store], in program order. *)
Inductive StoreWrite :=
  | WrBool (k : SKey) (v : option bool)
  | WrWindowBounds (r : Rectangle)
  | WrDiscordBranch (v : option string).

(** Calls that leave the module. *)
Inductive Effect :=
  | EffAbout                       (* createAboutWindow *)
  | EffDownload                    (* downloadVencordFiles() *)
  | EffRelaunch                    (* app.relaunch() *)
  | EffQuit                        (* app.quit() *)
  | EffQuickSwitcher                (* executeJavaScript of the fixed snippet *)
  | EffRole (role : string)        (* a menu role handled by the toolkit *)
  | EffLinksOpenExternally.        (* makeLinksOpenExternally(win) *)

(** The module's variables ([isQuitting], [tray], [mainWin]), the objects
    they refer to, and the stores and logs around them. *)
Record State := mkState {
  isQuitting : bool;
  tray : option nat;                   (* [None] is [undefined] *)
  mainWin : Window;
  trays : list Tray;                   (* every [new Tray], by creation *)
  trayMenus : list (list MenuItem);    (* every [trayMenu], by creation *)
  applicationMenu : list TopItem;
  Settings : SettingsStore;
  VencordSettings : VencordStore;
  settingsListeners : list (SKey * ChangeListener);
  vencordListeners : list (VKey * ChangeListener);
  writes : list StoreWrite;
  effects : list Effect;
  pendingDownloads : nat               (* [downloadVencordFiles()] awaited *)
}.

Definition set_isQuitting (b : bool) (st : State) : State :=
  mkState b (tray st) (mainWin st) (trays st) (trayMenus st) (applicationMenu st)
          (Settings st) (VencordSettings st) (settingsListeners st) (vencordListeners st)
          (writes st) (effects st) (pendingDownloads st).

Definition set_tray (t : option nat) (st : State) : State :=
  mkState (isQuitting st) t (mainWin st) (trays st) (trayMenus st) (applicationMenu st)
          (Settings st) (VencordSettings st) (settingsListeners st) (vencordListeners st)
          (writes st) (effects st) (pendingDownloads st).

Definition set_mainWin (w : Window) (st : State) : State :=
  mkState (isQuitting st) (tray st) w (trays st) (trayMenus st) (applicationMenu st)
          (Settings st) (VencordSettings st) (settingsListeners st) (vencordListeners st)
          (writes st) (effects st) (pendingDownloads st).

Definition set_trays (ts : list Tray) (st : State) : State :=
  mkState (isQuitting st) (tray st) (mainWin st) ts (trayMenus st) (applicationMenu st)
          (Settings st) (VencordSettings st) (settingsListeners st) (vencordListeners st)
          (writes st) (effects st) (pendingDownloads st).

Definition set_trayMenus (ms : list (list MenuItem)) (st : State) : State :=
  mkState (isQuitting st) (tray st) (mainWin st) (trays st) ms (applicationMenu st)
          (Settings st) (VencordSettings st) (settingsListeners st) (vencordListeners st)
          (writes st) (effects st) (pendingDownloads st).

Definition set_applicationMenu (m : list TopItem) (st : State) : State :=
  mkState (isQuitting st) (tray st) (mainWin st) (trays st) (trayMenus st) m
          (Settings st) (VencordSettings st) (settingsListeners st) (vencordListeners st)
          (writes st) (effects st) (pendingDownloads st).

Definition set_Settings (s : SettingsStore) (st : State) : State :=
  mkState (isQuitting st) (tray st) (mainWin st) (trays st) (trayMenus st) (applicationMenu st)
          s (VencordSettings st) (settingsListeners st) (vencordListeners st)
          (writes st) (effects st) (pendingDownloads st).

Definition set_VencordSettings (vs : VencordStore) (st : State) : State :=
  mkState (isQuitting st) (tray st) (mainWin st) (trays st) (trayMenus st) (applicationMenu st)
          (Settings st) vs (settingsListeners st) (vencordListeners st)
          (writes st) (effects st) (pendingDownloads st).

Definition set_settingsListeners (l : list (SKey * ChangeListener)) (st : State) : State :=
  mkState (isQuitting st) (tray st) (mainWin st) (trays st) (trayMenus st) (applicationMenu st)
          (Settings st) (VencordSettings st) l (vencordListeners st)
          (writes st) (effects st) (pendingDownloads st).

Definition set_vencordListeners (l : list (VKey * ChangeListener)) (st : State) : State :=
  mkState (isQuitting st) (tray st) (mainWin st) (trays st) (trayMenus st) (applicationMenu st)
          (Settings st) (VencordSettings st) (settingsListeners st) l
          (writes st) (effects st) (pendingDownloads st).

Definition log_write (w : StoreWrite) (st : State) : State :=
  mkState (isQuitting st) (tray st) (mainWin st) (trays st) (trayMenus st) (applicationMenu st)
          (Settings st) (VencordSettings st) (settingsListeners st) (vencordListeners st)
          (writes st ++ [w]) (effects st) (pendingDownloads st).

Definition log_effect (e : Effect) (st : State) : State :=
  mkState (isQuitting st) (tray st) (mainWin st) (trays st) (trayMenus st) (applicationMenu st)
          (Settings st) (VencordSettings st) (settingsListeners st) (vencordListeners st)
          (writes st) (effects st ++ [e]) (pendingDownloads st).

Definition set_pendingDownloads (n : nat) (st : State) : State :=
  mkState (isQuitting st) (tray st) (mainWin st) (trays st) (trayMenus st) (applicationMenu st)
          (Settings st) (VencordSettings st) (settingsListeners st) (vencordListeners st)
          (writes st) (effects st) n.

(** Field updates of the window. *)
Definition w_set_visible (b : bool) (w : Window) : Window :=
  mkWindow b (w_destroyed w) (w_bounds w) (w_minWidth w) (w_minHeight w)
           (w_maximized w) (w_minimized w) (w_frame w) (w_title w) (w_vibrancy w)
           (w_backgroundColor w) (w_userAgent w) (w_url w) (w_listeners w).

Definition w_set_destroyed (b : bool) (w : Window) : Window :=
  mkWindow (w_visible w) b (w_bounds w) (w_minWidth w) (w_minHeight w)
           (w_maximized w) (w_minimized w) (w_frame w) (w_title w) (w_vibrancy w)
           (w_backgroundColor w) (w_userAgent w) (w_url w) (w_listeners w).

Definition w_set_bounds (r : Rectangle) (w : Window) : Window :=
  mkWindow (w_visible w) (w_destroyed w) r (w_minWidth w) (w_minHeight w)
           (w_maximized w) (w_minimized w) (w_frame w) (w_title w) (w_vibrancy w)
           (w_backgroundColor w) (w_userAgent w) (w_url w) (w_listeners w).

Definition w_set_minimumSize (mw mh : Z) (w : Window) : Window :=
  mkWindow (w_visible w) (w_destroyed w) (w_bounds w) mw mh
           (w_maximized w) (w_minimized w) (w_frame w) (w_title w) (w_vibrancy w)
           (w_backgroundColor w) (w_userAgent w) (w_url w) (w_listeners w).

Definition w_set_state (mx mn : bool) (w : Window) : Window :=
  mkWindow (w_visible w) (w_destroyed w) (w_bounds w) (w_minWidth w) (w_minHeight w)
           mx mn (w_frame w) (w_title w) (w_vibrancy w)
           (w_backgroundColor w) (w_userAgent w) (w_url w) (w_listeners w).

Definition w_set_title (t : option string) (w : Window) : Window :=
  mkWindow (w_visible w) (w_destroyed w) (w_bounds w) (w_minWidth w) (w_minHeight w)
           (w_maximized w) (w_minimized w) (w_frame w) t (w_vibrancy w)
           (w_backgroundColor w) (w_userAgent w) (w_url w) (w_listeners w).

Definition w_set_vibrancy (v : option string) (w : Window) : Window :=
  mkWindow (w_visible w) (w_destroyed w) (w_bounds w) (w_minWidth w) (w_minHeight w)
           (w_maximized w) (w_minimized w) (w_frame w) (w_title w) v
           (w_backgroundColor w) (w_userAgent w) (w_url w) (w_listeners w).

Definition w_set_backgroundColor (c : option string) (w : Window) : Window :=
  mkWindow (w_visible w) (w_destroyed w) (w_bounds w) (w_minWidth w) (w_minHeight w)
           (w_maximized w) (w_minimized w) (w_frame w) (w_title w) (w_vibrancy w)
           c (w_userAgent w) (w_url w) (w_listeners w).

Definition w_set_userAgent (u : option string) (w : Window) : Window :=
  mkWindow (w_visible w) (w_destroyed w) (w_bounds w) (w_minWidth w) (w_minHeight w)
           (w_maximized w) (w_minimized w) (w_frame w) (w_title w) (w_vibrancy w)
           (w_backgroundColor w) u (w_url w) (w_listeners w).

Definition w_set_url (u : option string) (w : Window) : Window :=
  mkWindow (w_visible w) (w_destroyed w) (w_bounds w) (w_minWidth w) (w_minHeight w)
           (w_maximized w) (w_minimized w) (w_frame w) (w_title w) (w_vibrancy w)
           (w_backgroundColor w) (w_userAgent w) u (w_listeners w).

Definition w_set_listeners (l : WinListeners) (w : Window) : Window :=
  mkWindow (w_visible w) (w_destroyed w) (w_bounds w) (w_minWidth w) (w_minHeight w)
           (w_maximized w) (w_minimized w) (w_frame w) (w_title w) (w_vibrancy w)
           (w_backgroundColor w) (w_userAgent w) (w_url w) l.

(** Apply a window update to the module's window. *)
Definition on_win (f : Window -> Window) (st : State) : State :=
  set_mainWin (f (mainWin st)) st.

Definition on_listeners (f : WinListeners -> WinListeners) (st : State) : State :=
  on_win (fun w => w_set_listeners (f (w_listeners w)) w) st.

(** ** Show and hide *)

(** [trayMenu.items[0].enabled = b] for the menu [m] a closure holds. *)
Definition set_open_enabled (b : bool) (m : nat) (st : State) : State :=
  set_trayMenus (alter (alter (set_enabled b) 0%nat) m (trayMenus st)) st.

(** The toolkit emits [show] once the window is shown, [hide] once it is
    hidden; the listeners run in registration order. *)
Definition emit_show (st : State) : State :=
  foldl (fun s m => set_open_enabled false m s) st (on_show (w_listeners (mainWin st))).

Definition emit_hide (st : State) : State :=
  foldl (fun s m => set_open_enabled true m s) st (on_hide (w_listeners (mainWin st))).

(** [win.show()] and [win.hide()]. *)
Definition win_show (st : State) : State :=
  emit_show (on_win (w_set_visible true) st).

Definition win_hide (st : State) : State :=
  emit_hide (on_win (w_set_visible false) st).

(** ** [initTray], lines 26-78 *)

Definition initTray (st : State) : State :=
  let m := length (trayMenus st) in
  let st := set_trayMenus (trayMenus st ++ [buildFromTemplate trayTemplate]) st in
  let t := length (trays st) in
  let st :=
    set_trays (trays st ++ [mkTray (Some "Vencord Desktop") (Some m) [ClickShowWin] false]) st in
  let st := set_tray (Some t) st in
  let st :=
    on_listeners (fun l =>
      mkListeners (on_close l) (on_page_title_updated l) (on_maximize l) (on_minimize l)
                  (on_unmaximize l) (on_resize l) (on_move l)
                  (on_show l ++ [m]) (on_hide l)) st in
  on_listeners (fun l =>
    mkListeners (on_close l) (on_page_title_updated l) (on_maximize l) (on_minimize l)
                (on_unmaximize l) (on_resize l) (on_move l)
                (on_show l) (on_hide l ++ [m])) st.

(** ** The listeners of [initSettingsListeners], lines 204-233 *)

(** [tray?.destroy()] *)
Definition destroy_current_tray (st : State) : State :=
  match tray st with
  | Some t => set_trays (alter destroy_tray t (trays st)) st
  | None => st
  end.

Definition onTrayChange (enable : option bool) (st : State) : State :=
  if truthy enable then initTray st else destroy_current_tray st.

Definition onDisableMinSizeChange (disable : option bool) (st : State) : State :=
  if truthy disable then on_win (w_set_minimumSize 1 1) st
  else
    let st := on_win (w_set_minimumSize MIN_WIDTH MIN_HEIGHT) st in
    let b := w_bounds (mainWin st) in
    (* setBounds with only width and height keeps the position *)
    on_win (w_set_bounds (mkRectangle (rx b) (ry b)
                                      (Z.max (rwidth b) MIN_WIDTH)
                                      (Z.max (rheight b) MIN_HEIGHT))) st.

Definition onMacosTranslucencyChange (enabled : option bool) (st : State) : State :=
  if truthy enabled
  then on_win (w_set_backgroundColor (Some "#ffffff00"))
              (on_win (w_set_vibrancy (Some "sidebar")) st)
  else on_win (w_set_backgroundColor (Some "#ffffff"))
              (on_win (w_set_vibrancy None) st).

Definition run_listener (l : ChangeListener) (v : option bool) (st : State) : State :=
  match l with
  | OnTray => onTrayChange v st
  | OnDisableMinSize => onDisableMinSizeChange v st
  | OnMacosTranslucency => onMacosTranslucencyChange v st
  end.

(** ** The settings stores

    Modelled from the spec: the [Settings] and [VencordSettings] objects of
    ./settings, which is not part of the sources at hand.  The
    specification gives their interface: a mapping from option name to
    value, with one listener list per key, and a listener is invoked with
    the new value whenever the value of its key changes. *)

Definition get_setting (k : SKey) (s : SettingsStore) : option bool :=
  match k with
  | KTray => s_tray s
  | KMinimizeToTray => s_minimizeToTray s
  | KDisableMinSize => s_disableMinSize s
  | KStaticTitle => s_staticTitle s
  | KMaximized => s_maximized s
  | KMinimized => s_minimized s
  end.

Definition put_setting (k : SKey) (v : option bool) (s : SettingsStore) : SettingsStore :=
  match k with
  | KTray =>
      mkSettings v (s_minimizeToTray s) (s_disableMinSize s) (s_staticTitle s)
                 (s_discordBranch s) (s_windowBounds s) (s_maximized s) (s_minimized s)
  | KMinimizeToTray =>
      mkSettings (s_tray s) v (s_disableMinSize s) (s_staticTitle s)
                 (s_discordBranch s) (s_windowBounds s) (s_maximized s) (s_minimized s)
  | KDisableMinSize =>
      mkSettings (s_tray s) (s_minimizeToTray s) v (s_staticTitle s)
                 (s_discordBranch s) (s_windowBounds s) (s_maximized s) (s_minimized s)
  | KStaticTitle =>
      mkSettings (s_tray s) (s_minimizeToTray s) (s_disableMinSize s) v
                 (s_discordBranch s) (s_windowBounds s) (s_maximized s) (s_minimized s)
  | KMaximized =>
      mkSettings (s_tray s) (s_minimizeToTray s) (s_disableMinSize s) (s_staticTitle s)
                 (s_discordBranch s) (s_windowBounds s) v (s_minimized s)
  | KMinimized =>
      mkSettings (s_tray s) (s_minimizeToTray s) (s_disableMinSize s) (s_staticTitle s)
                 (s_discordBranch s) (s_windowBounds s) (s_maximized s) v
  end.

Definition put_windowBounds (b : option StoredBounds) (s : SettingsStore) : SettingsStore :=
  mkSettings (s_tray s) (s_minimizeToTray s) (s_disableMinSize s) (s_staticTitle s)
             (s_discordBranch s) b (s_maximized s) (s_minimized s).

Definition put_discordBranch (v : option string) (s : SettingsStore) : SettingsStore :=
  mkSettings (s_tray s) (s_minimizeToTray s) (s_disableMinSize s) (s_staticTitle s)
             v (s_windowBounds s) (s_maximized s) (s_minimized s).

Definition get_vencord (k : VKey) (vs : VencordStore) : option bool :=
  match k with
  | KWinCtrlQ => v_winCtrlQ vs
  | KFrameless => v_frameless vs
  | KMacosTranslucency => v_macosTranslucency vs
  end.

Definition put_vencord (k : VKey) (v : option bool) (vs : VencordStore) : VencordStore :=
  match k with
  | KWinCtrlQ => mkVencord v (v_frameless vs) (v_macosTranslucency vs)
  | KFrameless => mkVencord (v_winCtrlQ vs) v (v_macosTranslucency vs)
  | KMacosTranslucency => mkVencord (v_winCtrlQ vs) (v_frameless vs) v
  end.

(** Invoke the listeners registered under [k], in registration order. *)
Definition notify {K} `{EqDecision K} (k : K) (v : option bool)
    (ls : list (K * ChangeListener)) (st : State) : State :=
  foldl (fun s kl => if bool_decide (kl.1 = k) then run_listener kl.2 v s else s) st ls.

(** [Settings.store[k] = v] *)
Definition store_set (k : SKey) (v : option bool) (st : State) : State :=
  let old := get_setting k (Settings st) in
  let st := log_write (WrBool k v) (set_Settings (put_setting k v (Settings st)) st) in
  if bool_decide (old = v) then st else notify k v (settingsListeners st) st.

(** [Settings.store.windowBounds = r]; no listener of this module is
    registered under that key, nor under [discordBranch]. *)
Definition store_set_windowBounds (r : Rectangle) (st : State) : State :=
  log_write (WrWindowBounds r)
            (set_Settings (put_windowBounds (Some (stored_of_rect r)) (Settings st)) st).

Definition store_set_discordBranch (v : option string) (st : State) : State :=
  log_write (WrDiscordBranch v) (set_Settings (put_discordBranch v (Settings st)) st).

(** [VencordSettings.store[k] = v] *)
Definition vencord_set (k : VKey) (v : option bool) (st : State) : State :=
  let old := get_vencord k (VencordSettings st) in
  let st := set_VencordSettings (put_vencord k v (VencordSettings st)) st in
  if bool_decide (old = v) then st else notify k v (vencordListeners st) st.

(** ** [initWindowBoundsListeners], lines 186-202 *)

Definition saveState (st : State) : State :=
  let st := store_set KMaximized (Some (w_maximized (mainWin st))) st in
  store_set KMinimized (Some (w_minimized (mainWin st))) st.

Definition saveBounds (st : State) : State :=
  store_set_windowBounds (w_bounds (mainWin st)) st.

Definition run_state_listener (st : State) (l : StateListener) : State :=
  match l with SaveState => saveState st end.

Definition run_bounds_listener (st : State) (l : BoundsListener) : State :=
  match l with SaveBounds => saveBounds st end.

Definition initWindowBoundsListeners (st : State) : State :=
  on_listeners (fun l =>
    mkListeners (on_close l) (on_page_title_updated l)
                (on_maximize l ++ [SaveState]) (on_minimize l ++ [SaveState])
                (on_unmaximize l ++ [SaveState])
                (on_resize l ++ [SaveBounds]) (on_move l ++ [SaveBounds])
                (on_show l) (on_hide l)) st.

Definition initSettingsListeners (st : State) : State :=
  let st :=
    set_settingsListeners
      (settingsListeners st ++ [(KTray, OnTray); (KDisableMinSize, OnDisableMinSize)]) st in
  set_vencordListeners
    (vencordListeners st ++ [(KMacosTranslucency, OnMacosTranslucency)]) st.

(** ** The close policy, lines 258-265 *)

(** The listener's effect and whether it called [e.preventDefault()]. *)
Definition closeListener (st : State) : State * bool :=
  if isQuitting st
     || is_false (s_minimizeToTray (Settings st))
     || is_false (s_tray (Settings st))
  then (st, false)
  else (win_hide st, true).

Definition run_close_listener (acc : State * bool) (l : CloseListener) : State * bool :=
  match l with
  | HideToTray => let '(st, p) := closeListener acc.1 in (st, acc.2 || p)
  end.

(** A close request: the toolkit emits [close] and destroys the window
    unless a listener prevented the default. *)
Definition requestClose (st : State) : State :=
  let '(st, prevented) :=
    foldl run_close_listener (st, false) (on_close (w_listeners (mainWin st))) in
  if prevented then st else on_win (w_set_destroyed true) st.

(** The page announces a title: the toolkit adopts it unless a listener
    prevented the default (line 267). *)
Definition pageTitleUpdated (title : string) (st : State) : State :=
  let prevented :=
    existsb (fun l => match l with KeepTitle => true end)
            (on_page_title_updated (w_listeners (mainWin st))) in
  if prevented then st else on_win (w_set_title (Some title)) st.

(** ** The application object and the menu clicks *)

(** The [before-quit] listener, lines 20-22. *)
Definition beforeQuit (st : State) : State := set_isQuitting true st.

(** [app.quit()]: the toolkit emits [before-quit] first; the windows are
    asked to close afterwards, which reaches the module as a close
    request. *)
Definition app_quit (st : State) : State := beforeQuit (log_effect EffQuit st).

Definition run_click (st : State) (c : Click) : State :=
  match c with
  | ClickShowWin => win_show st
  | ClickAbout => log_effect EffAbout st
  | ClickUpdate =>
      set_pendingDownloads (S (pendingDownloads st)) (log_effect EffDownload st)
  | ClickRelaunch => app_quit (log_effect EffRelaunch st)
  | ClickTrayQuit => app_quit (set_isQuitting true st)
  | ClickQuit => app_quit st
  | ClickQuickSwitcher => log_effect EffQuickSwitcher st
  end.

(** The continuation of an awaited download, lines 43-44 and 97-98. *)
Definition downloadDone (st : State) : State :=
  match pendingDownloads st with
  | O => st
  | S n => app_quit (log_effect EffRelaunch (set_pendingDownloads n st))
  end.

(** Activating a menu item: a disabled item does nothing, a role is
    carried out by the toolkit in place of [click]. *)
Definition activate (i : MenuItem) (st : State) : State :=
  if mi_enabled i then
    match mi_role i, mi_click i with
    | Some r, _ => if bool_decide (r = "quit") then app_quit st else log_effect (EffRole r) st
    | None, Some c => run_click st c
    | None, None => st
    end
  else st.

(** ** [createMainWindow], lines 235-287 *)

Definition userAgent : string :=
  "Mozilla/5.0 (Windows NT 10.0; Win64; x64) AppleWebKit/537.36 (KHTML, like Gecko) Chrome/111.0.0.0 Safari/537.36".

(** The module variables start as lines 17-18 leave them: [isQuitting] is
    false and [tray] is undefined. *)
Definition createMainWindow (env : Env) (s : SettingsStore) (vs : VencordStore) : State :=
  let win := newBrowserWindow env (windowOptions s vs) in
  let st := mkState false None win [] [] [] s vs [] [] [] [] 0 in
  let st :=
    on_listeners (fun l =>
      mkListeners (on_close l ++ [HideToTray]) (on_page_title_updated l) (on_maximize l)
                  (on_minimize l) (on_unmaximize l) (on_resize l) (on_move l)
                  (on_show l) (on_hide l)) st in
  let st :=
    if truthy (s_staticTitle s)
    then on_listeners (fun l =>
           mkListeners (on_close l) (on_page_title_updated l ++ [KeepTitle]) (on_maximize l)
                       (on_minimize l) (on_unmaximize l) (on_resize l) (on_move l)
                       (on_show l) (on_hide l)) st
    else st in
  let st := initWindowBoundsListeners st in
  let st := if nullish (s_tray s) true then initTray st else st in
  let st := set_applicationMenu (initMenuBar (env_isWindows env) vs) st in
  let st := log_effect EffLinksOpenExternally st in
  let st := initSettingsListeners st in
  let st := on_win (w_set_userAgent (Some userAgent)) st in
  on_win (w_set_url (Some (loadedURL s))) st.

(** ** The event loop *)

(** What reaches the module after [createMainWindow]: window, tray, menu and
    application events dispatched by the toolkit, the completion of a
    download, and assignments to the settings stores by the rest of the
    application.  Window events carry the state the toolkit has put the
    window in when it emits them. *)
Inductive Event :=
  | EvBeforeQuit
  | EvShow
  | EvHide
  | EvMove (r : Rectangle)
  | EvResize (r : Rectangle)
  | EvMaximize (maximized minimized : bool)
  | EvMinimize (maximized minimized : bool)
  | EvUnmaximize (maximized minimized : bool)
  | EvClose
  | EvPageTitleUpdated (title : string)
  | EvTrayClick (t : nat)
  | EvTrayMenuClick (t i : nat)
  | EvAppMenuClick (i : nat)
  | EvDownloadDone
  | EvSetSetting (k : SKey) (v : option bool)
  | EvSetDiscordBranch (v : option string)
  | EvSetVencord (k : VKey) (v : option bool).

Definition trayClick (t : nat) (st : State) : State :=
  match trays st !! t with
  | Some tr => if tr_destroyed tr then st else foldl run_click st (tr_on_click tr)
  | None => st
  end.

(** Item [i] of the tray menu [m] refers to. *)
Definition menuItem (st : State) (m : option nat) (i : nat) : option MenuItem :=
  match m with
  | Some m =>
      match trayMenus st !! m with
      | Some items => items !! i
      | None => None
      end
  | None => None
  end.

Definition trayMenuClick (t i : nat) (st : State) : State :=
  match trays st !! t with
  | Some tr =>
      if tr_destroyed tr then st
      else match menuItem st (tr_contextMenu tr) i with
           | Some item => activate item st
           | None => st
           end
  | None => st
  end.

Definition appMenuClick (i : nat) (st : State) : State :=
  match applicationMenu st with
  | top :: _ =>
      match ti_submenu top !! i with
      | Some item => activate item st
      | None => st
      end
  | [] => st
  end.

(** One turn of the event loop.  The window lives as long as the
    application; once a close has gone through the window is destroyed and
    the model stops there. *)
Definition step (st : State) (ev : Event) : State :=
  if w_destroyed (mainWin st) then st
  else
    match ev with
    | EvBeforeQuit => beforeQuit st
    | EvShow => win_show st
    | EvHide => win_hide st
    | EvMove r =>
        let st := on_win (w_set_bounds r) st in
        foldl run_bounds_listener st (on_move (w_listeners (mainWin st)))
    | EvResize r =>
        let st := on_win (w_set_bounds r) st in
        foldl run_bounds_listener st (on_resize (w_listeners (mainWin st)))
    | EvMaximize mx mn =>
        let st := on_win (w_set_state mx mn) st in
        foldl run_state_listener st (on_maximize (w_listeners (mainWin st)))
    | EvMinimize mx mn =>
        let st := on_win (w_set_state mx mn) st in
        foldl run_state_listener st (on_minimize (w_listeners (mainWin st)))
    | EvUnmaximize mx mn =>
        let st := on_win (w_set_state mx mn) st in
        foldl run_state_listener st (on_unmaximize (w_listeners (mainWin st)))
    | EvClose => requestClose st
    | EvPageTitleUpdated title => pageTitleUpdated title st
    | EvTrayClick t => trayClick t st
    | EvTrayMenuClick t i => trayMenuClick t i st
    | EvAppMenuClick i => appMenuClick i st
    | EvDownloadDone => downloadDone st
    | EvSetSetting k v => store_set k v st
    | EvSetDiscordBranch v => store_set_discordBranch v st
    | EvSetVencord k v => vencord_set k v st
    end.

(** The state after a sequence of events. *)
Definition run (st : State) (evs : list Event) : State := foldl step st evs.

(** ** Observations used by the properties *)

(** The number of tray icons that exist (created and not destroyed). *)
Definition liveTrays (st : State) : nat :=
  length (List.filter (fun t => negb (tr_destroyed t)) (trays st)).

(** The setting with its default: an absent [tray] counts as true (line
    270). *)
Definition trayEnabled (st : State) : bool := nullish (s_tray (Settings st)) true.

(** [enabled] of the first item of tray menu [m]. *)
Definition openEnabled (st : State) (m : nat) : option bool :=
  mi_enabled <$> menuItem st (Some m) 0.

(** [enabled] of the first item of the context menu of the tray that the
    module variable [tray] refers to. *)
Definition currentOpenEnabled (st : State) : option bool :=
  match tray st with
  | Some t =>
      match trays st !! t with
      | Some tr => mi_enabled <$> menuItem st (tr_contextMenu tr) 0
      | None => None
      end
  | None => None
  end.

(** ** Well-formed states

    What [createMainWindow] establishes about the registered listeners and
    the tray objects, and every event preserves. *)
Record wf (st : State) : Prop := mkWf {
  wf_close : on_close (w_listeners (mainWin st)) = [HideToTray];
  wf_maximize : on_maximize (w_listeners (mainWin st)) = [SaveState];
  wf_minimize : on_minimize (w_listeners (mainWin st)) = [SaveState];
  wf_unmaximize : on_unmaximize (w_listeners (mainWin st)) = [SaveState];
  wf_resize : on_resize (w_listeners (mainWin st)) = [SaveBounds];
  wf_move : on_move (w_listeners (mainWin st)) = [SaveBounds];
  wf_show : on_show (w_listeners (mainWin st)) = seq 0 (length (trayMenus st));
  wf_hide : on_hide (w_listeners (mainWin st)) = seq 0 (length (trayMenus st));
  wf_settingsListeners :
    settingsListeners st = [(KTray, OnTray); (KDisableMinSize, OnDisableMinSize)];
  wf_vencordListeners :
    vencordListeners st = [(KMacosTranslucency, OnMacosTranslucency)];
  wf_menus : Forall (fun items : list MenuItem => is_Some (items !! 0%nat)) (trayMenus st);
  wf_trays_length : length (trays st) = length (trayMenus st);
  wf_trays_menu :
    forall (t : nat) (tr : Tray), trays st !! t = Some tr -> tr_contextMenu tr = Some t;
  wf_tray : forall t : nat, tray st = Some t -> (t < length (trays st))%nat
}.

(** The part of the state [wf] looks at. *)
Definition shape (st : State) :=
  (w_listeners (mainWin st), trayMenus st, trays st, tray st,
   settingsListeners st, vencordListeners st).

(** ** Statements of the specification, in its own words *)

(** The host the specification assigns to a value of [discordBranch]. *)
Definition claimedHost (branch : option string) : string :=
  if bool_decide (branch = Some "canary") then "canary.discord.com"
  else if bool_decide (branch = Some "ptb") then "ptb.discord.com"
  else "discord.com".

(** The accelerator the specification assigns to the visible Quit item,
    reading "opts out" as [winCtrlQ] being false. *)
Definition claimedQuitAccelerator (isWindows : bool) (vs : VencordStore) : option string :=
  if isWindows then Some "Alt+F4"
  else if is_false (v_winCtrlQ vs) then None
  else Some "CmdOrCtrl+Q".

(** "The tray icon exists if and only if the setting is currently true",
    an absent setting counting as true. *)
Definition trayIffEnabled (st : State) : Prop :=
  (0 < liveTrays st)%nat <-> trayEnabled st = true.

(** An assignment to [tray] that the listener of lines 205-208 reconciles:
    a boolean, and not [true] over an absent value. *)
Definition trayWriteOk (st : State) (ev : Event) : bool :=
  match ev with
  | EvSetSetting KTray None => false
  | EvSetSetting KTray (Some true) => bool_decide (s_tray (Settings st) <> None)
  | _ => true
  end.

Fixpoint trayWritesOk (st : State) (evs : list Event) : bool :=
  match evs with
  | [] => true
  | ev :: evs => trayWriteOk st ev && trayWritesOk (step st ev) evs
  end.

(** A field of the persisted [windowBounds], absent when the record is. *)
Definition persisted (f : StoredBounds -> option Z) (s : SettingsStore) : option Z :=
  match s_windowBounds s with
  | Some b => f b
  | None => None
  end.

(** The number of [app.quit()] calls made so far. *)
Definition quitCalls (st : State) : nat :=
  length (List.filter (fun e => match e with EffQuit => true | _ => false end) (effects st)).

(** ** Relations between the states before and after an operation *)

(** The operation neither touched [isQuitting] nor called outside. *)
Definition quiet (st st' : State) : Prop :=
  isQuitting st' = isQuitting st /\ effects st' = effects st.

(** The operation left [isQuitting] alone without calling [app.quit()], or
    it called [app.quit()] and [isQuitting] is set. *)
Definition quitStep (st st' : State) : Prop :=
  (isQuitting st' = isQuitting st /\ quitCalls st' = quitCalls st)
  \/ (isQuitting st' = true /\ (quitCalls st < quitCalls st')%nat).

(** The tray objects, the module variable and the setting. *)
Definition trayData (st : State) := (trays st, tray st, s_tray (Settings st)).

(** Every tray but the last created is destroyed, the module variable
    refers to the last, and the last exists exactly when the setting, with
    its default, is true. *)
Definition trayInv (st : State) : Prop :=
  (trays st = [] /\ tray st = None /\ trayEnabled st = false)
  \/ (exists (old : list Tray) (cur : Tray),
        trays st = old ++ [cur]
        /\ Forall (fun t => tr_destroyed t = true) old
        /\ tray st = Some (length old)
        /\ tr_destroyed cur = negb (trayEnabled st)).

(** ** Further observations and invariants *)

(** What [createMainWindow] decides once: the installed menu, the loaded
    URL, the frame, the user agent and the title listeners. *)
Definition fixedPart (st : State) :=
  (applicationMenu st, w_url (mainWin st), w_frame (mainWin st),
   w_userAgent (mainWin st), on_page_title_updated (w_listeners (mainWin st))).

(** The translucency of the window and the setting that drives it. *)
Definition translucencyPart (st : State) :=
  (w_vibrancy (mainWin st), w_backgroundColor (mainWin st),
   v_macosTranslucency (VencordSettings st)).

(** The minimum size of the window and the setting that drives it. *)
Definition minSizePart (st : State) :=
  (w_minWidth (mainWin st), w_minHeight (mainWin st), s_disableMinSize (Settings st)).

(** The window chrome and the settings that drive it. *)
Definition chrome (st : State) :=
  (fixedPart st, w_title (mainWin st), translucencyPart st, minSizePart st).

(** The vibrancy and background follow [macosTranslucency]. *)
Definition translucencyInv (st : State) : Prop :=
  if truthy (v_macosTranslucency (VencordSettings st))
  then w_vibrancy (mainWin st) = Some "sidebar"
       /\ w_backgroundColor (mainWin st) = Some "#ffffff00"
  else w_vibrancy (mainWin st) = None
       /\ (w_backgroundColor (mainWin st) = None
           \/ w_backgroundColor (mainWin st) = Some "#ffffff").

(** The minimum size follows [disableMinSize]: the constants while it is
    not true, otherwise nothing (0 by 0, from construction) or 1 by 1 (from
    the listener). *)
Definition minSizeInv (st : State) : Prop :=
  if truthy (s_disableMinSize (Settings st))
  then (w_minWidth (mainWin st) = 0 /\ w_minHeight (mainWin st) = 0)
       \/ (w_minWidth (mainWin st) = 1 /\ w_minHeight (mainWin st) = 1)
  else w_minWidth (mainWin st) = MIN_WIDTH /\ w_minHeight (mainWin st) = MIN_HEIGHT.

(** Every tray menu is the template of [initTray] up to the [enabled] flag
    of its first item, and every tray has the one click listener of line
    69. *)
Definition menusInv (st : State) : Prop :=
  Forall (fun items : list MenuItem =>
            exists b : bool,
              items = alter (set_enabled b) 0%nat (buildFromTemplate trayTemplate))
         (trayMenus st)
  /\ Forall (fun tr : Tray => tr_on_click tr = [ClickShowWin]) (trays st).

(** The close listener would cancel a close request in this state. *)
Definition hidesOnClose (st : State) : bool :=
  negb (isQuitting st
        || is_false (s_minimizeToTray (Settings st))
        || is_false (s_tray (Settings st))).

(** The user's preferences: every key of the two stores that this module
    reads but has no business writing. *)
Definition prefs (st : State) :=
  (s_tray (Settings st), s_minimizeToTray (Settings st), s_disableMinSize (Settings st),
   s_staticTitle (Settings st), s_discordBranch (Settings st), VencordSettings st).

(** An assignment to a store by the rest of the application. *)
Definition isStoreWrite (ev : Event) : bool :=
  match ev with
  | EvSetSetting _ _ | EvSetDiscordBranch _ | EvSetVencord _ _ => true
  | _ => false
  end.

(** Whether the window is gone, and the preferences. *)
Definition core (st : State) := (w_destroyed (mainWin st), prefs st).

(** ** Steps that show or hide the window *)

(** A [show] event fires when the toolkit shows the window, and when the
    module calls [win.show()]: on a click on a tray icon that exists (line
    69) and on a click on the Open item of its menu while that item is
    enabled (lines 30-32). *)
Definition firesShow (st : State) (ev : Event) : Prop :=
  ev = EvShow
  \/ exists (t : nat) (tr : Tray),
       trays st !! t = Some tr /\ tr_destroyed tr = false
       /\ (ev = EvTrayClick t
           \/ (ev = EvTrayMenuClick t 0 /\ openEnabled st t = Some true)).

(** A [hide] event fires when the toolkit hides the window, and when the
    module calls [win.hide()]: on a close request that the close listener
    cancels (line 262). *)
Definition firesHide (st : State) (ev : Event) : Prop :=
  ev = EvHide \/ (ev = EvClose /\ hidesOnClose st = true).

(** * Properties *)

(** ** Tactics *)

(** Split a state (and its window) into fields so that projections of
    updated states compute. *)
Ltac destruct_state st :=
  let w := fresh "w" in
  let l := fresh "l" in
  destruct st as [? ? w ? ? ? ? ? ? ? ? ? ?];
  destruct w as [? ? ? ? ? ? ? ? ? ? ? ? ? l];
  destruct l as [? ? ? ? ? ? ? ? ?].

(** ** Show and hide rewrite the first item of every registered menu *)

Lemma foldl_set_open_enabled (b : bool) (ls : list nat) (st : State) :
  foldl (fun s m => set_open_enabled b m s) st ls
  = set_trayMenus
      (foldl (fun ms m => alter (alter (set_enabled b) 0%nat) m ms) (trayMenus st) ls) st.
Proof.
  revert st. induction ls as [|m ls IH]; intros st; simpl.
  - by destruct st.
  - rewrite IH. by destruct st.
Qed.

Lemma foldl_alter_seq {A} (f : A -> A) (pre l : list A) :
  foldl (fun ms m => alter f m ms) (pre ++ l) (seq (length pre) (length l))
  = pre ++ map f l.
Proof.
  revert pre. induction l as [|x l IH]; intros pre; simpl; [done|].
  replace (length pre) with (length pre + 0)%nat at 1 by lia.
  rewrite alter_app_r. simpl.
  specialize (IH (pre ++ [f x])).
  rewrite length_app in IH. simpl in IH.
  replace (length pre + 1)%nat with (S (length pre)) in IH by lia.
  rewrite <- !app_assoc in IH. simpl in IH. exact IH.
Qed.

Lemma foldl_alter_all {A} (f : A -> A) (l : list A) :
  foldl (fun ms m => alter f m ms) l (seq 0 (length l)) = map f l.
Proof. exact (foldl_alter_seq f [] l). Qed.

Lemma wf_ext (st st' : State) : shape st = shape st' -> wf st -> wf st'.
Proof.
  unfold shape. intros E [].
  injection E as E1 E2 E3 E4 E5 E6.
  constructor; rewrite <- ?E1, <- ?E2, <- ?E3, <- ?E4, <- ?E5, <- ?E6; assumption.
Qed.

Ltac same_shape :=
  match goal with
  | H : wf ?st |- wf _ => apply (wf_ext st); [by destruct_state st | exact H]
  end.

Lemma wf_set_menus (g : MenuItem -> MenuItem) (st : State) :
  wf st -> wf (set_trayMenus (map (alter g 0%nat) (trayMenus st)) st).
Proof.
  intros []. constructor; simpl; rewrite ?length_map; try assumption.
  apply Forall_map. eapply Forall_impl; [eassumption|].
  intros items [i Hi]. simpl. rewrite list_lookup_alter_eq, Hi. by eexists.
Qed.

Lemma emit_show_eq (st : State) :
  wf st ->
  emit_show st = set_trayMenus (map (alter (set_enabled false) 0%nat) (trayMenus st)) st.
Proof.
  intros H. unfold emit_show.
  rewrite foldl_set_open_enabled, (wf_show _ H), foldl_alter_all. reflexivity.
Qed.

Lemma emit_hide_eq (st : State) :
  wf st ->
  emit_hide st = set_trayMenus (map (alter (set_enabled true) 0%nat) (trayMenus st)) st.
Proof.
  intros H. unfold emit_hide.
  rewrite foldl_set_open_enabled, (wf_hide _ H), foldl_alter_all. reflexivity.
Qed.

Lemma wf_on_win (f : Window -> Window) (st : State) :
  (forall w, w_listeners (f w) = w_listeners w) -> wf st -> wf (on_win f st).
Proof.
  intros Hf H. apply (wf_ext st); [|exact H].
  unfold shape, on_win. simpl. by rewrite Hf.
Qed.

Lemma win_show_eq (st : State) :
  wf st ->
  win_show st
  = set_trayMenus (map (alter (set_enabled false) 0%nat) (trayMenus st))
                  (on_win (w_set_visible true) st).
Proof.
  intros H. unfold win_show. rewrite emit_show_eq; [reflexivity|].
  by apply wf_on_win.
Qed.

Lemma win_hide_eq (st : State) :
  wf st ->
  win_hide st
  = set_trayMenus (map (alter (set_enabled true) 0%nat) (trayMenus st))
                  (on_win (w_set_visible false) st).
Proof.
  intros H. unfold win_hide. rewrite emit_hide_eq; [reflexivity|].
  by apply wf_on_win.
Qed.

Lemma wf_win_show (st : State) : wf st -> wf (win_show st).
Proof.
  intros H. rewrite win_show_eq by exact H.
  apply (wf_set_menus _ (on_win (w_set_visible true) st)). by apply wf_on_win.
Qed.

Lemma wf_win_hide (st : State) : wf st -> wf (win_hide st).
Proof.
  intros H. rewrite win_hide_eq by exact H.
  apply (wf_set_menus _ (on_win (w_set_visible false) st)). by apply wf_on_win.
Qed.

Lemma wf_initTray (st : State) : wf st -> wf (initTray st).
Proof.
  intros H. destruct H. destruct_state st. simpl in *.
  constructor; simpl; rewrite ?length_app; simpl; try assumption.
  - rewrite Nat.add_1_r, seq_S. simpl. by f_equal.
  - rewrite Nat.add_1_r, seq_S. simpl. by f_equal.
  - apply Forall_app. split; [assumption|].
    constructor; [by eexists | constructor].
  - lia.
  - intros t tr Ht. apply lookup_app_Some in Ht as [Ht | [Hle Ht]].
    + eauto.
    + apply list_lookup_singleton_Some in Ht as [Ht <-]. simpl.
      f_equal. lia.
  - intros t [= <-]. lia.
Qed.

Lemma wf_destroy_current_tray (st : State) : wf st -> wf (destroy_current_tray st).
Proof.
  intros H. unfold destroy_current_tray. destruct (tray st) as [t|] eqn:Et; [|exact H].
  destruct H. constructor; simpl; rewrite ?length_alter; try assumption.
  intros t' tr Ht'. destruct (decide (t = t')) as [<-|Hne].
  - rewrite list_lookup_alter_eq in Ht'.
    destruct (trays st !! t) as [tr0|] eqn:E0; [|done].
    injection Ht' as <-. simpl. eauto.
  - rewrite list_lookup_alter_ne in Ht' by done. eauto.
Qed.

Lemma wf_run_listener (l : ChangeListener) (v : option bool) (st : State) :
  wf st -> wf (run_listener l v st).
Proof.
  intros H. destruct l; simpl.
  - unfold onTrayChange. destruct (truthy v);
      [by apply wf_initTray | by apply wf_destroy_current_tray].
  - unfold onDisableMinSizeChange. destruct (truthy v); repeat (apply wf_on_win; [done|]); done.
  - unfold onMacosTranslucencyChange. destruct (truthy v); repeat (apply wf_on_win; [done|]); done.
Qed.

Lemma wf_notify {K} `{EqDecision K} (k : K) (v : option bool)
    (ls : list (K * ChangeListener)) (st : State) :
  wf st -> wf (notify k v ls st).
Proof.
  unfold notify. revert st. induction ls as [|kl ls IH]; intros st H; simpl; [done|].
  apply IH. case_bool_decide; [by apply wf_run_listener | done].
Qed.

Lemma wf_store_set (k : SKey) (v : option bool) (st : State) :
  wf st -> wf (store_set k v st).
Proof.
  intros H. unfold store_set.
  assert (wf (log_write (WrBool k v) (set_Settings (put_setting k v (Settings st)) st)))
    by same_shape.
  case_bool_decide; [done|]. by apply wf_notify.
Qed.

Lemma wf_vencord_set (k : VKey) (v : option bool) (st : State) :
  wf st -> wf (vencord_set k v st).
Proof.
  intros H. unfold vencord_set.
  assert (wf (set_VencordSettings (put_vencord k v (VencordSettings st)) st))
    by same_shape.
  case_bool_decide; [done|]. by apply wf_notify.
Qed.

Lemma wf_saveState (st : State) : wf st -> wf (saveState st).
Proof. intros H. unfold saveState. by do 2 apply wf_store_set. Qed.

Lemma wf_saveBounds (st : State) : wf st -> wf (saveBounds st).
Proof. intros H. unfold saveBounds, store_set_windowBounds. same_shape. Qed.

Lemma wf_app_quit (st : State) : wf st -> wf (app_quit st).
Proof. intros H. unfold app_quit, beforeQuit. same_shape. Qed.

Lemma wf_run_click (st : State) (c : Click) : wf st -> wf (run_click st c).
Proof.
  intros H. destruct c; simpl; try same_shape.
  by apply wf_win_show.
Qed.

Lemma wf_activate (i : MenuItem) (st : State) : wf st -> wf (activate i st).
Proof.
  intros H. unfold activate. destruct (mi_enabled i); [|done].
  destruct (mi_role i) as [r|].
  - case_bool_decide; [by apply wf_app_quit | same_shape].
  - destruct (mi_click i); [by apply wf_run_click | done].
Qed.

Lemma requestClose_eq (st : State) :
  wf st ->
  requestClose st
  = if isQuitting st
       || is_false (s_minimizeToTray (Settings st))
       || is_false (s_tray (Settings st))
    then on_win (w_set_destroyed true) st
    else win_hide st.
Proof.
  intros H. unfold requestClose. rewrite (wf_close _ H). simpl.
  unfold closeListener.
  by destruct (isQuitting st || is_false (s_minimizeToTray (Settings st))
               || is_false (s_tray (Settings st))).
Qed.

Lemma wf_step (st : State) (ev : Event) : wf st -> wf (step st ev).
Proof.
  intros H. unfold step. destruct (w_destroyed (mainWin st)); [done|].
  destruct ev.
  - unfold beforeQuit. same_shape.
  - by apply wf_win_show.
  - by apply wf_win_hide.
  - assert (H' : wf (on_win (w_set_bounds r) st)) by by apply wf_on_win.
    rewrite (wf_move _ H'). simpl. by apply wf_saveBounds.
  - assert (H' : wf (on_win (w_set_bounds r) st)) by by apply wf_on_win.
    rewrite (wf_resize _ H'). simpl. by apply wf_saveBounds.
  - assert (H' : wf (on_win (w_set_state maximized minimized) st)) by by apply wf_on_win.
    rewrite (wf_maximize _ H'). simpl. by apply wf_saveState.
  - assert (H' : wf (on_win (w_set_state maximized minimized) st)) by by apply wf_on_win.
    rewrite (wf_minimize _ H'). simpl. by apply wf_saveState.
  - assert (H' : wf (on_win (w_set_state maximized minimized) st)) by by apply wf_on_win.
    rewrite (wf_unmaximize _ H'). simpl. by apply wf_saveState.
  - rewrite requestClose_eq by done.
    destruct (_ || _); [by apply wf_on_win | by apply wf_win_hide].
  - unfold pageTitleUpdated. destruct (existsb _ _); [done | by apply wf_on_win].
  - unfold trayClick. destruct (trays st !! t) as [tr|]; [|done].
    destruct (tr_destroyed tr); [done|].
    generalize (tr_on_click tr). intros cs. revert st H.
    induction cs as [|c cs IH]; intros st H; simpl; [done|].
    apply IH. by apply wf_run_click.
  - unfold trayMenuClick. destruct (trays st !! t) as [tr|]; [|done].
    destruct (tr_destroyed tr); [done|].
    destruct (menuItem st (tr_contextMenu tr) i); [by apply wf_activate | done].
  - unfold appMenuClick. destruct (applicationMenu st) as [|top ?]; [done|].
    destruct (ti_submenu top !! i); [by apply wf_activate | done].
  - unfold downloadDone. destruct (pendingDownloads st); [done|].
    apply wf_app_quit. same_shape.
  - by apply wf_store_set.
  - unfold store_set_discordBranch. same_shape.
  - by apply wf_vencord_set.
Qed.

Lemma wf_createMainWindow (env : Env) (s : SettingsStore) (vs : VencordStore) :
  wf (createMainWindow env s vs).
Proof.
  unfold createMainWindow.
  destruct (truthy (s_staticTitle s)), (nullish (s_tray s) true);
    constructor; simpl; try done;
    try (repeat constructor; by eexists).
  all: try (intros [|t] tr; simpl; [by intros [= <-] | done]).
  all: try (intros t [= <-]; lia).
Qed.

Lemma wf_run (st : State) (evs : list Event) : wf st -> wf (run st evs).
Proof.
  unfold run. revert st. induction evs as [|ev evs IH]; intros st H; simpl; [done|].
  apply IH. by apply wf_step.
Qed.

Lemma wf_reachable (env : Env) (s : SettingsStore) (vs : VencordStore) (evs : list Event) :
  wf (run (createMainWindow env s vs) evs).
Proof. apply wf_run, wf_createMainWindow. Qed.

(** ** The application menu *)

(** C3, as amended.  The visible Quit item is bound to Alt+F4 on Windows and
    to CmdOrCtrl+Q on every other platform, whatever [winCtrlQ] holds; the
    setting only decides, on Windows, whether the first (there hidden) Quit
    item carries CmdOrCtrl+Q; a hidden Quit item bound to CmdOrCtrl+Q is
    present in all cases. *)
Theorem menu_quit_items (isWindows : bool) (vs : VencordStore) :
  map mi_accelerator (visibleQuitItems (appSubmenu isWindows vs))
    = [Some (if isWindows then "Alt+F4" else "CmdOrCtrl+Q")]
  /\ map mi_accelerator (hiddenQuitItems (appSubmenu isWindows vs))
    = [ (if isWindows && truthy (v_winCtrlQ vs) then Some "CmdOrCtrl+Q" else None);
        Some "CmdOrCtrl+Q" ]
  /\ In (Some "CmdOrCtrl+Q") (map mi_accelerator (hiddenQuitItems (appSubmenu isWindows vs))).
Proof.
  destruct isWindows, vs as [[[|]|] ? ?]; vm_compute; repeat split; auto.
Qed.

(** C3 as stated fails: off Windows, with [winCtrlQ] set to false, the
    visible Quit item still carries CmdOrCtrl+Q. *)
Lemma menu_quit_optout_counterexample :
  map mi_accelerator (visibleQuitItems (appSubmenu false (mkVencord (Some false) None None)))
    = [Some "CmdOrCtrl+Q"]
  /\ map mi_accelerator (visibleQuitItems (appSubmenu false (mkVencord (Some false) None None)))
    <> [claimedQuitAccelerator false (mkVencord (Some false) None None)].
Proof. split; [reflexivity | vm_compute; discriminate]. Qed.

(** ** The loaded URL *)

Lemma w_url_createMainWindow (env : Env) (s : SettingsStore) (vs : VencordStore) :
  w_url (mainWin (createMainWindow env s vs)) = Some (loadedURL s).
Proof.
  unfold createMainWindow.
  by destruct (truthy (s_staticTitle s)), (nullish (s_tray s) true).
Qed.

(** C4.  The window loads https://HOST/app where HOST depends on
    [discordBranch] alone: canary.discord.com for "canary", ptb.discord.com
    for "ptb", discord.com for anything else, an absent value included. *)
Theorem loaded_url_by_branch (env : Env) (s : SettingsStore) (vs : VencordStore) :
  w_url (mainWin (createMainWindow env s vs))
    = Some ("https://" +:+ claimedHost (s_discordBranch s) +:+ "/app")
  /\ In (claimedHost (s_discordBranch s))
        ["canary.discord.com"; "ptb.discord.com"; "discord.com"]
  /\ claimedHost (Some "canary") = "canary.discord.com"
  /\ claimedHost (Some "ptb") = "ptb.discord.com"
  /\ claimedHost None = "discord.com".
Proof.
  rewrite w_url_createMainWindow. unfold loadedURL, subdomain, claimedHost.
  repeat split; try reflexivity.
  - destruct (s_discordBranch s) as [b|]; [|reflexivity].
    repeat case_bool_decide; simplify_eq; try reflexivity.
  - repeat case_bool_decide; simpl; auto.
Qed.

(** ** The construction options *)

(** C5.  The options take the persisted width and height when present and
    the default constants otherwise; they carry a position exactly when
    both persisted coordinates are present, and then both; they carry the
    minimum size exactly when [disableMinSize] is not true.  The argument
    of [new BrowserWindow] has these six options unchanged. *)
Theorem window_bounds_options (s : SettingsStore) (vs : VencordStore) :
  let o := getWindowBoundsOptions s in
  o_width o = Some (match persisted sb_width s with Some w => w | None => DEFAULT_WIDTH end)
  /\ o_height o = Some (match persisted sb_height s with Some h => h | None => DEFAULT_HEIGHT end)
  /\ match persisted sb_x s, persisted sb_y s with
     | Some x, Some y => o_x o = Some x /\ o_y o = Some y
     | _, _ => o_x o = None /\ o_y o = None
     end
  /\ (if bool_decide (s_disableMinSize s = Some true)
      then o_minWidth o = None /\ o_minHeight o = None
      else o_minWidth o = Some MIN_WIDTH /\ o_minHeight o = Some MIN_HEIGHT)
  /\ (o_width (windowOptions s vs), o_height (windowOptions s vs),
      o_x (windowOptions s vs), o_y (windowOptions s vs),
      o_minWidth (windowOptions s vs), o_minHeight (windowOptions s vs))
     = (o_width o, o_height o, o_x o, o_y o, o_minWidth o, o_minHeight o).
Proof.
  unfold windowOptions, getWindowBoundsOptions, persisted.
  destruct (s_windowBounds s) as [[[x|] [y|] [w|] [h|]]|];
    destruct (s_disableMinSize s) as [[|]|];
    destruct (truthy (s_staticTitle s)), (truthy (v_macosTranslucency vs));
    simpl; repeat split; reflexivity.
Qed.

(** ** The state right after construction *)

Lemma o_show_windowOptions (s : SettingsStore) (vs : VencordStore) :
  o_show (windowOptions s vs) = Some false.
Proof.
  unfold windowOptions, getWindowBoundsOptions.
  destruct (s_windowBounds s) as [[[x|] [y|] w h]|];
    destruct (s_disableMinSize s) as [[|]|];
    destruct (truthy (s_staticTitle s)), (truthy (v_macosTranslucency vs));
    reflexivity.
Qed.

Lemma w_visible_createMainWindow (env : Env) (s : SettingsStore) (vs : VencordStore) :
  w_visible (mainWin (createMainWindow env s vs)) = false.
Proof.
  unfold createMainWindow.
  destruct (truthy (s_staticTitle s)), (nullish (s_tray s) true);
    cbn -[windowOptions]; by rewrite o_show_windowOptions.
Qed.

(** C10.  When [createMainWindow] returns the window is not visible, and
    the Open item of the tray's context menu (present when the tray setting
    is true or absent) is disabled: the item is not yet the negation of the
    window's visibility. *)
Theorem open_item_initially_disabled (env : Env) (s : SettingsStore) (vs : VencordStore) :
  let st := createMainWindow env s vs in
  w_visible (mainWin st) = false
  /\ currentOpenEnabled st = (if nullish (s_tray s) true then Some false else None)
  /\ map (fun items : list MenuItem => mi_enabled <$> items !! 0%nat) (trayMenus st)
     = (if nullish (s_tray s) true then [Some false] else [])
  /\ currentOpenEnabled st <> Some (negb (w_visible (mainWin st))).
Proof.
  cbv zeta. rewrite w_visible_createMainWindow. unfold createMainWindow.
  destruct (truthy (s_staticTitle s)), (nullish (s_tray s) true);
    repeat split; try reflexivity; simpl; discriminate.
Qed.

(** ** The close policy *)

(** C1.  On a close request a live window is closed when [isQuitting] is
    set, or [minimizeToTray] is false, or [tray] is false, and nothing else
    changes; otherwise the close is cancelled: the window stays alive and is
    hidden, and neither [app.quit()] nor any other outside call is made. *)
Theorem close_request_policy (env : Env) (s : SettingsStore) (vs : VencordStore)
    (evs : list Event) :
  let st := run (createMainWindow env s vs) evs in
  w_destroyed (mainWin st) = false ->
  let st' := step st EvClose in
  if isQuitting st
     || is_false (s_minimizeToTray (Settings st))
     || is_false (s_tray (Settings st))
  then w_destroyed (mainWin st') = true /\ st' = on_win (w_set_destroyed true) st
  else w_destroyed (mainWin st') = false
       /\ w_visible (mainWin st') = false
       /\ effects st' = effects st
       /\ isQuitting st' = isQuitting st.
Proof.
  intros st Halive st'. subst st'.
  assert (H : wf st) by apply wf_reachable.
  unfold step. rewrite Halive, requestClose_eq by exact H.
  destruct (_ || _).
  - split; reflexivity.
  - rewrite win_hide_eq by exact H. simpl. by rewrite Halive.
Qed.

(** ** The Open item of the tray menus *)

Lemma openEnabled_map (b : bool) (st st' : State) (m : nat) :
  wf st ->
  (m < length (trayMenus st))%nat ->
  trayMenus st' = map (alter (set_enabled b) 0%nat) (trayMenus st) ->
  openEnabled st' m = Some b.
Proof.
  intros H Hm E. unfold openEnabled, menuItem. rewrite E, list_lookup_fmap.
  destruct (lookup_lt_is_Some_2 _ _ Hm) as [items Hitems]. rewrite Hitems. simpl.
  pose proof (wf_menus _ H) as HF. rewrite Forall_lookup in HF.
  destruct (HF _ _ Hitems) as [i Hi].
  by rewrite list_lookup_alter_eq, Hi.
Qed.

Lemma currentOpenEnabled_eq (st : State) (t : nat) :
  wf st -> tray st = Some t ->
  currentOpenEnabled st = openEnabled st t /\ (t < length (trayMenus st))%nat.
Proof.
  intros H Ht. unfold currentOpenEnabled, openEnabled. rewrite Ht.
  pose proof (wf_tray _ H _ Ht) as Hlt.
  destruct (lookup_lt_is_Some_2 _ _ Hlt) as [tr Htr]. rewrite Htr.
  rewrite (wf_trays_menu _ H _ _ Htr). split; [reflexivity|].
  by rewrite <- (wf_trays_length _ H).
Qed.

(** ** Bounds persistence *)

Lemma store_set_inert (k : SKey) (v : option bool) (st : State) :
  wf st -> k <> KTray -> k <> KDisableMinSize ->
  store_set k v st
  = log_write (WrBool k v) (set_Settings (put_setting k v (Settings st)) st).
Proof.
  intros H H1 H2. unfold store_set. case_bool_decide; [reflexivity|].
  simpl. rewrite (wf_settingsListeners _ H). unfold notify. simpl.
  by rewrite !bool_decide_eq_false_2.
Qed.

Lemma saveState_eq (st : State) :
  wf st ->
  saveState st
  = log_write (WrBool KMinimized (Some (w_minimized (mainWin st))))
      (set_Settings
         (put_setting KMinimized (Some (w_minimized (mainWin st)))
            (put_setting KMaximized (Some (w_maximized (mainWin st))) (Settings st)))
         (log_write (WrBool KMaximized (Some (w_maximized (mainWin st)))) st)).
Proof.
  intros H. unfold saveState.
  rewrite (store_set_inert KMaximized) by done.
  rewrite (store_set_inert KMinimized); [by destruct_state st | | done | done].
  apply (wf_ext st); [by destruct_state st | exact H].
Qed.

Lemma step_bounds_event (st : State) (r : Rectangle) (ev : Event) :
  wf st -> w_destroyed (mainWin st) = false ->
  ev = EvMove r \/ ev = EvResize r ->
  step st ev = store_set_windowBounds r (on_win (w_set_bounds r) st).
Proof.
  intros H Halive Hev.
  assert (H' : wf (on_win (w_set_bounds r) st)) by by apply wf_on_win.
  unfold step. rewrite Halive. destruct Hev as [-> | ->].
  - by rewrite (wf_move _ H').
  - by rewrite (wf_resize _ H').
Qed.

Lemma step_state_event (st : State) (mx mn : bool) (ev : Event) :
  wf st -> w_destroyed (mainWin st) = false ->
  ev = EvMaximize mx mn \/ ev = EvMinimize mx mn \/ ev = EvUnmaximize mx mn ->
  step st ev = saveState (on_win (w_set_state mx mn) st).
Proof.
  intros H Halive Hev.
  assert (H' : wf (on_win (w_set_state mx mn) st)) by by apply wf_on_win.
  unfold step. rewrite Halive. destruct Hev as [-> | [-> | ->]].
  - by rewrite (wf_maximize _ H').
  - by rewrite (wf_minimize _ H').
  - by rewrite (wf_unmaximize _ H').
Qed.

Lemma writes_run_bounds_events (mk : Rectangle -> Event) (rs : list Rectangle) (st : State) :
  wf st -> w_destroyed (mainWin st) = false ->
  mk = EvMove \/ mk = EvResize ->
  writes (run st (map mk rs)) = writes st ++ map WrWindowBounds rs
  /\ w_destroyed (mainWin (run st (map mk rs))) = false.
Proof.
  intros H Halive Hmk. revert st H Halive.
  induction rs as [|r rs IH]; intros st H Halive; simpl.
  - by rewrite app_nil_r.
  - assert (E : step st (mk r) = store_set_windowBounds r (on_win (w_set_bounds r) st)).
    { apply step_bounds_event; [done | done |]. destruct Hmk as [-> | ->]; auto. }
    destruct (IH (step st (mk r))) as [IHw IHd].
    + by apply wf_step.
    + rewrite E. simpl. exact Halive.
    + unfold run in *. rewrite IHw, IHd. split; [|reflexivity].
      rewrite E. simpl. by rewrite <- app_assoc.
Qed.

(** C8.  On a live window every move or resize event appends exactly one
    write, of the window's bounds at that moment, to the writes of the
    settings store, so that a burst of such events leaves one write per
    event; every maximize, minimize or unmaximize event appends the two
    writes of [maximized] and [minimized], whose values are the window's
    state at that moment whichever of the three events occurred. *)
Theorem bounds_and_state_writes (env : Env) (s : SettingsStore) (vs : VencordStore)
    (evs : list Event) :
  let st := run (createMainWindow env s vs) evs in
  w_destroyed (mainWin st) = false ->
  (forall (r : Rectangle) (ev : Event),
      ev = EvMove r \/ ev = EvResize r ->
      let st' := step st ev in
      writes st' = writes st ++ [WrWindowBounds (w_bounds (mainWin st'))]
      /\ w_bounds (mainWin st') = r
      /\ s_windowBounds (Settings st') = Some (stored_of_rect r))
  /\ (forall (mx mn : bool) (ev : Event),
      ev = EvMaximize mx mn \/ ev = EvMinimize mx mn \/ ev = EvUnmaximize mx mn ->
      let st' := step st ev in
      writes st' = writes st ++ [WrBool KMaximized (Some (w_maximized (mainWin st')));
                                 WrBool KMinimized (Some (w_minimized (mainWin st')))]
      /\ w_maximized (mainWin st') = mx
      /\ w_minimized (mainWin st') = mn
      /\ s_maximized (Settings st') = Some mx
      /\ s_minimized (Settings st') = Some mn)
  /\ (forall (mk : Rectangle -> Event) (rs : list Rectangle),
      mk = EvMove \/ mk = EvResize ->
      writes (run st (map mk rs)) = writes st ++ map WrWindowBounds rs).
Proof.
  intros st Halive.
  assert (H : wf st) by apply wf_reachable.
  repeat split.
  1-3: rewrite (step_bounds_event st r ev H Halive) by assumption; reflexivity.
  1-5: rewrite (step_state_event st mx mn ev H Halive) by assumption;
       rewrite saveState_eq by (by apply wf_on_win); try reflexivity;
       simpl; by rewrite <- app_assoc.
  intros mk rs Hmk. by apply writes_run_bounds_events.
Qed.

(** ** The minimum size *)

(** C6.  When [disableMinSize] changes to a false value the minimum size is
    the pair of constants again and each of the window's width and height
    becomes the larger of its current value and the constant, so neither
    shrinks and the position stays; when it changes to true the minimum
    size becomes 1 by 1, below every positive size, and the bounds stay. *)
Theorem disableMinSize_change (env : Env) (s : SettingsStore) (vs : VencordStore)
    (evs : list Event) (v : option bool) :
  let st := run (createMainWindow env s vs) evs in
  w_destroyed (mainWin st) = false ->
  s_disableMinSize (Settings st) <> v ->
  let st' := step st (EvSetSetting KDisableMinSize v) in
  let b := w_bounds (mainWin st) in
  let b' := w_bounds (mainWin st') in
  if truthy v
  then w_minWidth (mainWin st') = 1 /\ w_minHeight (mainWin st') = 1
       /\ (forall w h : Z, 0 < w -> 0 < h ->
             w_minWidth (mainWin st') <= w /\ w_minHeight (mainWin st') <= h)
       /\ b' = b
  else w_minWidth (mainWin st') = MIN_WIDTH /\ w_minHeight (mainWin st') = MIN_HEIGHT
       /\ rwidth b' = Z.max (rwidth b) MIN_WIDTH
       /\ rheight b' = Z.max (rheight b) MIN_HEIGHT
       /\ rwidth b <= rwidth b' /\ rheight b <= rheight b'
       /\ rx b' = rx b /\ ry b' = ry b.
Proof.
  intros st Halive Hchange st' b b'. subst st' b b'.
  assert (H : wf st) by apply wf_reachable.
  unfold step. rewrite Halive. unfold store_set.
  rewrite bool_decide_eq_false_2 by exact Hchange.
  simpl. rewrite (wf_settingsListeners _ H). unfold notify. simpl.
  unfold onDisableMinSizeChange. destruct (truthy v); simpl.
  - repeat split; lia.
  - repeat split; lia.
Qed.

(** ** The quitting flag *)

Lemma quitCalls_log (e : Effect) (st : State) :
  quitCalls (log_effect e st)
  = (quitCalls st + match e with EffQuit => 1 | _ => 0 end)%nat.
Proof.
  unfold quitCalls. simpl. rewrite List.filter_app, length_app. by destruct e.
Qed.

Lemma quiet_refl (st : State) : quiet st st.
Proof. by split. Qed.

Lemma quiet_trans (a b c : State) : quiet a b -> quiet b c -> quiet a c.
Proof. unfold quiet. intros [-> ->] [-> ->]. by split. Qed.

Lemma quiet_quitStep (st st' : State) : quiet st st' -> quitStep st st'.
Proof. intros [Hq He]. left. unfold quitCalls. by rewrite Hq, He. Qed.

Lemma quitStep_trans (a b c : State) : quitStep a b -> quitStep b c -> quitStep a c.
Proof.
  unfold quitStep. intros [[H1 H2] | [H1 H2]] [[H3 H4] | [H3 H4]].
  - left. split; congruence.
  - right. split; [done | lia].
  - right. split; [congruence | lia].
  - right. split; [done | lia].
Qed.

Lemma quiet_win_show (st : State) : quiet st (win_show st).
Proof. unfold win_show, emit_show. rewrite foldl_set_open_enabled. by split. Qed.

Lemma quiet_win_hide (st : State) : quiet st (win_hide st).
Proof. unfold win_hide, emit_hide. rewrite foldl_set_open_enabled. by split. Qed.

Lemma quiet_run_listener (l : ChangeListener) (v : option bool) (st : State) :
  quiet st (run_listener l v st).
Proof.
  destruct l; simpl.
  - unfold onTrayChange, destroy_current_tray.
    destruct (truthy v); [by split|]. by destruct (tray st).
  - unfold onDisableMinSizeChange. by destruct (truthy v).
  - unfold onMacosTranslucencyChange. by destruct (truthy v).
Qed.

Lemma quiet_notify {K} `{EqDecision K} (k : K) (v : option bool)
    (ls : list (K * ChangeListener)) (st : State) :
  quiet st (notify k v ls st).
Proof.
  unfold notify. revert st. induction ls as [|kl ls IH]; intros st; simpl.
  - apply quiet_refl.
  - eapply quiet_trans; [|apply IH].
    case_bool_decide; [apply quiet_run_listener | apply quiet_refl].
Qed.

Lemma quiet_store_set (k : SKey) (v : option bool) (st : State) :
  quiet st (store_set k v st).
Proof.
  unfold store_set. case_bool_decide; [by split|].
  eapply quiet_trans; [|apply quiet_notify]. by split.
Qed.

Lemma quiet_vencord_set (k : VKey) (v : option bool) (st : State) :
  quiet st (vencord_set k v st).
Proof.
  unfold vencord_set. case_bool_decide; [by split|].
  eapply quiet_trans; [|apply quiet_notify]. by split.
Qed.

Lemma quitStep_app_quit (st : State) : quitStep st (app_quit st).
Proof.
  right. split; [reflexivity|]. unfold app_quit, beforeQuit.
  change (quitCalls (set_isQuitting true (log_effect EffQuit st)))
    with (quitCalls (log_effect EffQuit st)).
  rewrite quitCalls_log. lia.
Qed.

Lemma quitStep_run_click (st : State) (c : Click) : quitStep st (run_click st c).
Proof.
  destruct c; simpl.
  - apply quiet_quitStep, quiet_win_show.
  - left. split; [done|]. rewrite quitCalls_log. simpl. lia.
  - left. split; [done|].
    change (quitCalls (set_pendingDownloads (S (pendingDownloads st)) (log_effect EffDownload st)))
      with (quitCalls (log_effect EffDownload st)).
    rewrite quitCalls_log. simpl. lia.
  - eapply quitStep_trans; [|apply quitStep_app_quit].
    left. split; [done|]. rewrite quitCalls_log. simpl. lia.
  - right. split; [reflexivity|].
    unfold quitCalls. simpl. rewrite List.filter_app, length_app. simpl. lia.
  - apply quitStep_app_quit.
  - left. split; [done|]. rewrite quitCalls_log. simpl. lia.
Qed.

Lemma quitStep_activate (i : MenuItem) (st : State) : quitStep st (activate i st).
Proof.
  unfold activate. destruct (mi_enabled i); [|apply quiet_quitStep, quiet_refl].
  destruct (mi_role i) as [r|].
  - case_bool_decide; [apply quitStep_app_quit|].
    left. split; [done|]. rewrite quitCalls_log. simpl. lia.
  - destruct (mi_click i); [apply quitStep_run_click | apply quiet_quitStep, quiet_refl].
Qed.

Lemma quitStep_step (st : State) (ev : Event) :
  wf st -> ev <> EvBeforeQuit -> quitStep st (step st ev).
Proof.
  intros H Hev. unfold step.
  destruct (w_destroyed (mainWin st)) eqn:Halive; [apply quiet_quitStep, quiet_refl|].
  destruct ev; try done.
  - apply quiet_quitStep, quiet_win_show.
  - apply quiet_quitStep, quiet_win_hide.
  - assert (H' : wf (on_win (w_set_bounds r) st)) by by apply wf_on_win.
    rewrite (wf_move _ H'). by apply quiet_quitStep.
  - assert (H' : wf (on_win (w_set_bounds r) st)) by by apply wf_on_win.
    rewrite (wf_resize _ H'). by apply quiet_quitStep.
  - assert (H' : wf (on_win (w_set_state maximized minimized) st)) by by apply wf_on_win.
    rewrite (wf_maximize _ H'). simpl. rewrite saveState_eq by done. by apply quiet_quitStep.
  - assert (H' : wf (on_win (w_set_state maximized minimized) st)) by by apply wf_on_win.
    rewrite (wf_minimize _ H'). simpl. rewrite saveState_eq by done. by apply quiet_quitStep.
  - assert (H' : wf (on_win (w_set_state maximized minimized) st)) by by apply wf_on_win.
    rewrite (wf_unmaximize _ H'). simpl. rewrite saveState_eq by done. by apply quiet_quitStep.
  - rewrite requestClose_eq by done. apply quiet_quitStep.
    destruct (_ || _); [by split | apply quiet_win_hide].
  - unfold pageTitleUpdated. apply quiet_quitStep. by destruct (existsb _ _).
  - unfold trayClick. destruct (trays st !! t) as [tr|]; [|apply quiet_quitStep, quiet_refl].
    destruct (tr_destroyed tr); [apply quiet_quitStep, quiet_refl|].
    generalize (tr_on_click tr). intros cs.
    assert (G : forall st0, quitStep st st0 -> quitStep st (foldl run_click st0 cs)).
    { induction cs as [|c cs IH]; intros st0 H0; simpl; [done|].
      apply IH. eapply quitStep_trans; [exact H0 | apply quitStep_run_click]. }
    apply G, quiet_quitStep, quiet_refl.
  - unfold trayMenuClick. destruct (trays st !! t) as [tr|]; [|apply quiet_quitStep, quiet_refl].
    destruct (tr_destroyed tr); [apply quiet_quitStep, quiet_refl|].
    destruct (menuItem st (tr_contextMenu tr) i);
      [apply quitStep_activate | apply quiet_quitStep, quiet_refl].
  - unfold appMenuClick. destruct (applicationMenu st) as [|top ?];
      [apply quiet_quitStep, quiet_refl|].
    destruct (ti_submenu top !! i);
      [apply quitStep_activate | apply quiet_quitStep, quiet_refl].
  - unfold downloadDone. destruct (pendingDownloads st) eqn:E;
      [apply quiet_quitStep, quiet_refl|].
    eapply quitStep_trans; [|apply quitStep_app_quit].
    left. split; [done|]. rewrite quitCalls_log. simpl.
    unfold quitCalls. simpl. lia.
  - apply quiet_quitStep, quiet_store_set.
  - by apply quiet_quitStep.
  - apply quiet_quitStep, quiet_vencord_set.
Qed.

Lemma isQuitting_step (st : State) (ev : Event) :
  wf st -> isQuitting st = true -> isQuitting (step st ev) = true.
Proof.
  intros H Hq.
  assert (D : ev = EvBeforeQuit \/ ev <> EvBeforeQuit)
    by (destruct ev; (by left) || (by right)).
  destruct D as [-> | Hne].
  - unfold step. by destruct (w_destroyed (mainWin st)).
  - destruct (quitStep_step st ev H Hne) as [[E _] | [E _]]; congruence.
Qed.

Lemma isQuitting_run (st : State) (evs : list Event) :
  wf st -> isQuitting st = true -> isQuitting (run st evs) = true.
Proof.
  unfold run. revert st. induction evs as [|ev evs IH]; intros st H Hq; simpl; [done|].
  apply IH; [by apply wf_step | by apply isQuitting_step].
Qed.

(** C9.  [isQuitting] is false when [createMainWindow] returns; once true it
    stays true under every further sequence of events; and an event other
    than the before-quit notification changes it only if [app.quit()] was
    called while handling it (tray Quit, menu Quit, Relaunch, the end of an
    update): close requests, show, hide, bounds, state and settings events
    leave it as it is. *)
Theorem isQuitting_one_way (env : Env) (s : SettingsStore) (vs : VencordStore) :
  let st0 := createMainWindow env s vs in
  isQuitting st0 = false
  /\ (forall evs evs' : list Event,
        isQuitting (run st0 evs) = true -> isQuitting (run st0 (evs ++ evs')) = true)
  /\ (forall (evs : list Event) (ev : Event),
        ev <> EvBeforeQuit ->
        quitCalls (step (run st0 evs) ev) = quitCalls (run st0 evs) ->
        isQuitting (step (run st0 evs) ev) = isQuitting (run st0 evs)).
Proof.
  intros st0. repeat split.
  - subst st0. unfold createMainWindow.
    by destruct (truthy (s_staticTitle s)), (nullish (s_tray s) true).
  - intros evs evs' Hq. unfold run. rewrite foldl_app.
    apply isQuitting_run; [apply wf_reachable | exact Hq].
  - intros evs ev Hev Hcalls.
    destruct (quitStep_step (run st0 evs) ev (wf_reachable _ _ _ _) Hev) as [[E _] | [_ E]];
      [exact E | lia].
Qed.

(** ** The tray icon and the tray setting *)

Lemma trayData_win_show (st : State) : trayData (win_show st) = trayData st.
Proof. unfold win_show, emit_show. by rewrite foldl_set_open_enabled. Qed.

Lemma trayData_win_hide (st : State) : trayData (win_hide st) = trayData st.
Proof. unfold win_hide, emit_hide. by rewrite foldl_set_open_enabled. Qed.

Lemma trayData_run_click (st : State) (c : Click) : trayData (run_click st c) = trayData st.
Proof. destruct c; try reflexivity. apply trayData_win_show. Qed.

Lemma trayData_activate (i : MenuItem) (st : State) : trayData (activate i st) = trayData st.
Proof.
  unfold activate. destruct (mi_enabled i); [|done].
  destruct (mi_role i) as [r|].
  - by case_bool_decide.
  - destruct (mi_click i); [apply trayData_run_click | done].
Qed.

Lemma trayData_store_set (k : SKey) (v : option bool) (st : State) :
  wf st -> k <> KTray -> trayData (store_set k v st) = trayData st.
Proof.
  intros H Hk. unfold store_set.
  case_bool_decide; [by destruct k|].
  simpl. rewrite (wf_settingsListeners _ H). unfold notify. simpl.
  rewrite (bool_decide_eq_false_2 (KTray = k)) by congruence.
  case_bool_decide; [|by destruct k].
  subst k. unfold onDisableMinSizeChange. by destruct (truthy v).
Qed.

Lemma trayData_vencord_set (k : VKey) (v : option bool) (st : State) :
  wf st -> trayData (vencord_set k v st) = trayData st.
Proof.
  intros H. unfold vencord_set. case_bool_decide; [done|].
  simpl. rewrite (wf_vencordListeners _ H). unfold notify. simpl.
  case_bool_decide; [|done].
  unfold onMacosTranslucencyChange. by destruct (truthy v).
Qed.

Lemma trayData_step (st : State) (ev : Event) :
  wf st -> (forall v, ev <> EvSetSetting KTray v) ->
  trayData (step st ev) = trayData st.
Proof.
  intros H Hev. unfold step. destruct (w_destroyed (mainWin st)); [done|].
  destruct ev.
  - done.
  - apply trayData_win_show.
  - apply trayData_win_hide.
  - assert (H' : wf (on_win (w_set_bounds r) st)) by by apply wf_on_win.
    by rewrite (wf_move _ H').
  - assert (H' : wf (on_win (w_set_bounds r) st)) by by apply wf_on_win.
    by rewrite (wf_resize _ H').
  - assert (H' : wf (on_win (w_set_state maximized minimized) st)) by by apply wf_on_win.
    rewrite (wf_maximize _ H'). simpl. by rewrite saveState_eq.
  - assert (H' : wf (on_win (w_set_state maximized minimized) st)) by by apply wf_on_win.
    rewrite (wf_minimize _ H'). simpl. by rewrite saveState_eq.
  - assert (H' : wf (on_win (w_set_state maximized minimized) st)) by by apply wf_on_win.
    rewrite (wf_unmaximize _ H'). simpl. by rewrite saveState_eq.
  - rewrite requestClose_eq by done.
    destruct (_ || _); [done | apply trayData_win_hide].
  - unfold pageTitleUpdated. by destruct (existsb _ _).
  - unfold trayClick. destruct (trays st !! t) as [tr|]; [|done].
    destruct (tr_destroyed tr); [done|].
    generalize (tr_on_click tr). intros cs.
    assert (G : forall st0, trayData st0 = trayData st ->
                            trayData (foldl run_click st0 cs) = trayData st).
    { induction cs as [|c cs IH]; intros st0 H0; simpl; [done|].
      apply IH. by rewrite trayData_run_click. }
    by apply G.
  - unfold trayMenuClick. destruct (trays st !! t) as [tr|]; [|done].
    destruct (tr_destroyed tr); [done|].
    destruct (menuItem st (tr_contextMenu tr) i); [apply trayData_activate | done].
  - unfold appMenuClick. destruct (applicationMenu st) as [|top ?]; [done|].
    destruct (ti_submenu top !! i); [apply trayData_activate | done].
  - unfold downloadDone. by destruct (pendingDownloads st).
  - apply trayData_store_set; [done|]. intros ->. by apply (Hev v).
  - done.
  - by apply trayData_vencord_set.
Qed.

Lemma trayInv_ext (st st' : State) : trayData st' = trayData st -> trayInv st -> trayInv st'.
Proof.
  unfold trayData, trayInv, trayEnabled. intros [= -> -> ->]. done.
Qed.

Lemma filter_destroyed (old : list Tray) :
  Forall (fun t => tr_destroyed t = true) old ->
  List.filter (fun t => negb (tr_destroyed t)) old = [].
Proof.
  induction 1 as [|t old Ht _ IH]; simpl; [done|]. by rewrite Ht.
Qed.

Lemma trayInv_liveTrays (st : State) :
  trayInv st -> liveTrays st = if trayEnabled st then 1%nat else 0%nat.
Proof.
  unfold liveTrays. intros [(-> & _ & ->) | (old & cur & -> & Hold & _ & Hcur)]; [done|].
  rewrite List.filter_app, filter_destroyed by done. simpl. rewrite Hcur.
  by destruct (trayEnabled st).
Qed.

Lemma trayInv_createMainWindow (env : Env) (s : SettingsStore) (vs : VencordStore) :
  trayInv (createMainWindow env s vs).
Proof.
  unfold trayInv, trayEnabled, createMainWindow.
  destruct (truthy (s_staticTitle s)), (nullish (s_tray s) true) eqn:E; simpl; rewrite E.
  1,3: right; by exists [], (mkTray (Some "Vencord Desktop") (Some 0%nat) [ClickShowWin] false).
  all: by left.
Qed.

Lemma step_set_tray (st : State) (v : option bool) :
  wf st -> w_destroyed (mainWin st) = false ->
  s_tray (Settings st) <> v ->
  step st (EvSetSetting KTray v)
  = onTrayChange v
      (log_write (WrBool KTray v) (set_Settings (put_setting KTray v (Settings st)) st)).
Proof.
  intros H Halive Hv. unfold step, store_set. rewrite Halive. simpl.
  rewrite bool_decide_eq_false_2 by done.
  by rewrite (wf_settingsListeners _ H).
Qed.

Lemma step_set_tray_same (st : State) (v : option bool) :
  s_tray (Settings st) = v ->
  trayData (step st (EvSetSetting KTray v)) = trayData st.
Proof.
  intros Hv. unfold step, store_set. destruct (w_destroyed (mainWin st)); [done|].
  simpl. rewrite bool_decide_eq_true_2 by done.
  unfold trayData. simpl. by rewrite Hv.
Qed.

Lemma trayInv_step (st : State) (ev : Event) :
  wf st -> trayInv st -> trayWriteOk st ev = true -> trayInv (step st ev).
Proof.
  intros H Hinv Hok.
  assert (Hother : (forall v, ev <> EvSetSetting KTray v) -> trayInv (step st ev)).
  { intros Hev. apply (trayInv_ext st); [by apply trayData_step | exact Hinv]. }
  destruct ev as [| | | | | | | | | | | | | |k v| |]; try (apply Hother; intros; discriminate).
  destruct k; try (apply Hother; intros; discriminate).
  destruct (w_destroyed (mainWin st)) eqn:Halive.
  { unfold step. by rewrite Halive. }
  destruct (decide (s_tray (Settings st) = v)) as [Hsame | Hchange].
  { apply (trayInv_ext st); [by apply step_set_tray_same | exact Hinv]. }
  rewrite step_set_tray by done.
  destruct v as [[|]|]; simpl in Hok; [| |done].
  - (* false -> true: a fresh tray becomes the current one *)
    apply bool_decide_eq_true_1 in Hok.
    assert (Hold : s_tray (Settings st) = Some false)
      by (destruct (s_tray (Settings st)) as [[|]|]; done).
    unfold onTrayChange. simpl. right.
    destruct Hinv as [(Ht & _ & _) | (old & cur & Ht & Hall & _ & Hcur)].
    + exists [], (mkTray (Some "Vencord Desktop") (Some (length (trayMenus st))) [ClickShowWin] false).
      simpl. by rewrite Ht.
    + exists (old ++ [cur]),
        (mkTray (Some "Vencord Desktop") (Some (length (trayMenus st))) [ClickShowWin] false).
      simpl. rewrite Ht. repeat split; try done.
      apply Forall_app. split; [done|]. constructor; [|done].
      rewrite Hcur. unfold trayEnabled. by rewrite Hold.
  - (* true or absent -> false: the current tray is destroyed *)
    unfold onTrayChange, destroy_current_tray. simpl.
    destruct Hinv as [(_ & _ & Hen) | (old & cur & Ht & Hall & Hvar & _)].
    + unfold trayEnabled in Hen. destruct (s_tray (Settings st)) as [[|]|]; done.
    + rewrite Hvar. right. exists old, (destroy_tray cur). simpl. rewrite Ht.
      repeat split; try done.
      replace (length old) with (length old + 0)%nat at 1 by lia.
      by rewrite alter_app_r.
Qed.

Lemma trayInv_run (st : State) (evs : list Event) :
  wf st -> trayInv st -> trayWritesOk st evs = true -> trayInv (run st evs).
Proof.
  unfold run. revert st. induction evs as [|ev evs IH]; intros st H Hinv Hok; simpl; [done|].
  simpl in Hok. apply andb_true_iff in Hok as [Hok1 Hok2].
  apply IH; [by apply wf_step | by apply trayInv_step | exact Hok2].
Qed.

(** C2, as amended.  As long as the [tray] setting is only assigned
    booleans and is not assigned true while it is absent, at every point
    from the return of [createMainWindow] on exactly one tray icon exists
    when the setting is true or absent, and none exists when it is false:
    the icon is created at construction unless the setting is false, a
    change to true creates it, a change to false destroys it. *)
Theorem tray_matches_setting (env : Env) (s : SettingsStore) (vs : VencordStore)
    (evs : list Event) :
  trayWritesOk (createMainWindow env s vs) evs = true ->
  let st := run (createMainWindow env s vs) evs in
  liveTrays st = (if trayEnabled st then 1%nat else 0%nat)
  /\ trayIffEnabled st.
Proof.
  intros Hok st.
  assert (E : liveTrays st = if trayEnabled st then 1%nat else 0%nat).
  { apply trayInv_liveTrays, trayInv_run;
      [apply wf_createMainWindow | apply trayInv_createMainWindow | exact Hok]. }
  split; [exact E|]. unfold trayIffEnabled. rewrite E.
  destruct (trayEnabled st); split; (done || lia).
Qed.

(** * Further properties of the module *)

(** ** What an event leaves alone *)

Lemma chrome_win_show (st : State) : chrome (win_show st) = chrome st.
Proof. unfold win_show, emit_show. by rewrite foldl_set_open_enabled. Qed.

Lemma chrome_win_hide (st : State) : chrome (win_hide st) = chrome st.
Proof. unfold win_hide, emit_hide. by rewrite foldl_set_open_enabled. Qed.

Lemma chrome_run_click (st : State) (c : Click) : chrome (run_click st c) = chrome st.
Proof. destruct c; try reflexivity. apply chrome_win_show. Qed.

Lemma chrome_activate (i : MenuItem) (st : State) : chrome (activate i st) = chrome st.
Proof.
  unfold activate. destruct (mi_enabled i); [|done].
  destruct (mi_role i) as [r|].
  - by case_bool_decide.
  - destruct (mi_click i); [apply chrome_run_click | done].
Qed.

Lemma chrome_store_set (k : SKey) (v : option bool) (st : State) :
  wf st -> k <> KDisableMinSize -> chrome (store_set k v st) = chrome st.
Proof.
  intros H Hk. unfold store_set.
  case_bool_decide; [by destruct k|].
  simpl. rewrite (wf_settingsListeners _ H). unfold notify. simpl.
  rewrite (bool_decide_eq_false_2 (KDisableMinSize = k)) by congruence.
  case_bool_decide; [|by destruct k].
  subst k. unfold onTrayChange, destroy_current_tray.
  destruct (truthy v); [done|]. simpl. by destruct (tray st).
Qed.

Lemma chrome_vencord_set (k : VKey) (v : option bool) (st : State) :
  wf st -> k <> KMacosTranslucency -> chrome (vencord_set k v st) = chrome st.
Proof.
  intros H Hk. unfold vencord_set. case_bool_decide; [by destruct k|].
  simpl. rewrite (wf_vencordListeners _ H). unfold notify. simpl.
  rewrite (bool_decide_eq_false_2 (KMacosTranslucency = k)) by congruence.
  by destruct k.
Qed.

Lemma chrome_step (st : State) (ev : Event) :
  wf st ->
  (forall t, ev <> EvPageTitleUpdated t) ->
  (forall v, ev <> EvSetSetting KDisableMinSize v) ->
  (forall v, ev <> EvSetVencord KMacosTranslucency v) ->
  chrome (step st ev) = chrome st.
Proof.
  intros H Ht Hm Hv. unfold step. destruct (w_destroyed (mainWin st)); [done|].
  destruct ev.
  - done.
  - apply chrome_win_show.
  - apply chrome_win_hide.
  - assert (H' : wf (on_win (w_set_bounds r) st)) by by apply wf_on_win.
    by rewrite (wf_move _ H').
  - assert (H' : wf (on_win (w_set_bounds r) st)) by by apply wf_on_win.
    by rewrite (wf_resize _ H').
  - assert (H' : wf (on_win (w_set_state maximized minimized) st)) by by apply wf_on_win.
    rewrite (wf_maximize _ H'). simpl. by rewrite saveState_eq.
  - assert (H' : wf (on_win (w_set_state maximized minimized) st)) by by apply wf_on_win.
    rewrite (wf_minimize _ H'). simpl. by rewrite saveState_eq.
  - assert (H' : wf (on_win (w_set_state maximized minimized) st)) by by apply wf_on_win.
    rewrite (wf_unmaximize _ H'). simpl. by rewrite saveState_eq.
  - rewrite requestClose_eq by done.
    destruct (_ || _); [done | apply chrome_win_hide].
  - by destruct (Ht title).
  - unfold trayClick. destruct (trays st !! t) as [tr|]; [|done].
    destruct (tr_destroyed tr); [done|].
    generalize (tr_on_click tr). intros cs.
    assert (G : forall st0, chrome st0 = chrome st ->
                            chrome (foldl run_click st0 cs) = chrome st).
    { induction cs as [|c cs IH]; intros st0 H0; simpl; [done|].
      apply IH. by rewrite chrome_run_click. }
    by apply G.
  - unfold trayMenuClick. destruct (trays st !! t) as [tr|]; [|done].
    destruct (tr_destroyed tr); [done|].
    destruct (menuItem st (tr_contextMenu tr) i); [apply chrome_activate | done].
  - unfold appMenuClick. destruct (applicationMenu st) as [|top ?]; [done|].
    destruct (ti_submenu top !! i); [apply chrome_activate | done].
  - unfold downloadDone. by destruct (pendingDownloads st).
  - apply chrome_store_set; [done|]. intros ->. by apply (Hm v).
  - done.
  - apply chrome_vencord_set; [done|]. intros ->. by apply (Hv v).
Qed.

Lemma step_title (st : State) (title : string) :
  w_destroyed (mainWin st) = false ->
  step st (EvPageTitleUpdated title) = pageTitleUpdated title st.
Proof. intros Halive. unfold step. by rewrite Halive. Qed.

Lemma step_set_disableMinSize (st : State) (v : option bool) :
  wf st -> w_destroyed (mainWin st) = false ->
  step st (EvSetSetting KDisableMinSize v)
  = let st' := log_write (WrBool KDisableMinSize v)
                 (set_Settings (put_setting KDisableMinSize v (Settings st)) st) in
    if bool_decide (s_disableMinSize (Settings st) = v) then st'
    else onDisableMinSizeChange v st'.
Proof.
  intros H Halive. unfold step, store_set. rewrite Halive. simpl.
  case_bool_decide; [done|]. by rewrite (wf_settingsListeners _ H).
Qed.

Lemma step_set_macosTranslucency (st : State) (v : option bool) :
  wf st -> w_destroyed (mainWin st) = false ->
  step st (EvSetVencord KMacosTranslucency v)
  = let st' := set_VencordSettings
                 (put_vencord KMacosTranslucency v (VencordSettings st)) st in
    if bool_decide (v_macosTranslucency (VencordSettings st) = v) then st'
    else onMacosTranslucencyChange v st'.
Proof.
  intros H Halive. unfold step, vencord_set. rewrite Halive. simpl.
  case_bool_decide; [done|]. by rewrite (wf_vencordListeners _ H).
Qed.

(** Settle a goal about one part of [chrome] for the events that leave all
    of it alone. *)
Ltac by_chrome st H :=
  match goal with
  | |- context [step st ?e] =>
      let E := fresh "E" in
      pose proof (chrome_step st e H ltac:(intros; discriminate)
                    ltac:(intros; discriminate) ltac:(intros; discriminate)) as E;
      unfold chrome, fixedPart, translucencyPart, minSizePart in E |- *;
      injection E; intros; congruence
  end.

(** Split on the three events that change a part of [chrome]; the cases
    left are a title update, a write of [disableMinSize] and a write of
    [macosTranslucency], in this order, on a live window. *)
Ltac chrome_cases st ev H :=
  let Halive := fresh "Halive" in
  let title := fresh "title" in
  let k := fresh "k" in
  let v := fresh "v" in
  destruct (w_destroyed (mainWin st)) eqn:Halive;
  [ unfold step; by rewrite Halive
  | destruct ev as [| | | | | | | | |title| | | | |k v| |k v];
    try by_chrome st H;
    [ rewrite step_title by assumption
    | destruct k; try by_chrome st H;
      rewrite step_set_disableMinSize by assumption
    | destruct k; try by_chrome st H;
      rewrite step_set_macosTranslucency by assumption ] ].

Lemma fixedPart_step (st : State) (ev : Event) :
  wf st -> fixedPart (step st ev) = fixedPart st.
Proof.
  intros H. chrome_cases st ev H.
  - unfold pageTitleUpdated. by destruct (existsb _ _).
  - simpl. case_bool_decide; [done|].
    unfold onDisableMinSizeChange. by destruct (truthy v).
  - simpl. case_bool_decide; [done|].
    unfold onMacosTranslucencyChange. by destruct (truthy v).
Qed.

Lemma title_step (st : State) (ev : Event) :
  wf st -> (forall t, ev <> EvPageTitleUpdated t) ->
  w_title (mainWin (step st ev)) = w_title (mainWin st).
Proof.
  intros H Hev. chrome_cases st ev H.
  - by destruct (Hev title).
  - simpl. case_bool_decide; [done|].
    unfold onDisableMinSizeChange. by destruct (truthy v).
  - simpl. case_bool_decide; [done|].
    unfold onMacosTranslucencyChange. by destruct (truthy v).
Qed.

Lemma translucencyPart_step (st : State) (ev : Event) :
  wf st -> (forall v, ev <> EvSetVencord KMacosTranslucency v) ->
  translucencyPart (step st ev) = translucencyPart st.
Proof.
  intros H Hev. chrome_cases st ev H.
  - unfold pageTitleUpdated. by destruct (existsb _ _).
  - simpl. case_bool_decide; [done|].
    unfold onDisableMinSizeChange. by destruct (truthy v).
  - by destruct (Hev v).
Qed.

Lemma minSizePart_step (st : State) (ev : Event) :
  wf st -> (forall v, ev <> EvSetSetting KDisableMinSize v) ->
  minSizePart (step st ev) = minSizePart st.
Proof.
  intros H Hev. chrome_cases st ev H.
  - unfold pageTitleUpdated. by destruct (existsb _ _).
  - by destruct (Hev v).
  - simpl. case_bool_decide; [done|].
    unfold onMacosTranslucencyChange. by destruct (truthy v).
Qed.

(** ** What construction decides *)

Lemma tuple5_inv {A B C D E} (a a' : A) (b b' : B) (c c' : C) (d d' : D) (e e' : E) :
  (a, b, c, d, e) = (a', b', c', d', e') ->
  a = a' /\ b = b' /\ c = c' /\ d = d' /\ e = e'.
Proof. by intros [= -> -> -> -> ->]. Qed.

Lemma tuple3_inv {A B C} (a a' : A) (b b' : B) (c c' : C) :
  (a, b, c) = (a', b', c') -> a = a' /\ b = b' /\ c = c'.
Proof. by intros [= -> -> ->]. Qed.

Lemma fixedPart_inv (st st' : State) :
  fixedPart st' = fixedPart st ->
  applicationMenu st' = applicationMenu st
  /\ w_url (mainWin st') = w_url (mainWin st)
  /\ w_frame (mainWin st') = w_frame (mainWin st)
  /\ w_userAgent (mainWin st') = w_userAgent (mainWin st)
  /\ on_page_title_updated (w_listeners (mainWin st'))
     = on_page_title_updated (w_listeners (mainWin st)).
Proof. apply tuple5_inv. Qed.

Lemma windowOptions_chrome (s : SettingsStore) (vs : VencordStore) :
  let o := windowOptions s vs in
  o_frame o = Some (is_not_true (v_frameless vs))
  /\ o_title o = (if truthy (s_staticTitle s) then Some "Vencord" else None)
  /\ o_vibrancy o = (if truthy (v_macosTranslucency vs) then Some "sidebar" else None)
  /\ o_backgroundColor o
     = (if truthy (v_macosTranslucency vs) then Some "#ffffff00" else None)
  /\ o_minWidth o = (if truthy (s_disableMinSize s) then None else Some MIN_WIDTH)
  /\ o_minHeight o = (if truthy (s_disableMinSize s) then None else Some MIN_HEIGHT).
Proof.
  unfold windowOptions, getWindowBoundsOptions.
  destruct (s_windowBounds s) as [[[x|] [y|] w h]|];
    destruct (truthy (s_disableMinSize s));
    destruct (truthy (s_staticTitle s)), (truthy (v_macosTranslucency vs));
    repeat split; reflexivity.
Qed.

Lemma createMainWindow_window (env : Env) (s : SettingsStore) (vs : VencordStore) :
  let w := mainWin (createMainWindow env s vs) in
  let o := windowOptions s vs in
  w_frame w = nullish (o_frame o) true
  /\ w_title w = o_title o
  /\ w_vibrancy w = o_vibrancy o
  /\ w_backgroundColor w = o_backgroundColor o
  /\ w_minWidth w = nullish (o_minWidth o) 0
  /\ w_minHeight w = nullish (o_minHeight o) 0
  /\ w_userAgent w = Some userAgent
  /\ w_destroyed w = false
  /\ w_bounds w = mkRectangle (initialPosition env o).1 (initialPosition env o).2
                              (nullish (o_width o) 800) (nullish (o_height o) 600).
Proof.
  unfold createMainWindow.
  destruct (truthy (s_staticTitle s)), (nullish (s_tray s) true);
    cbn -[windowOptions]; repeat split; reflexivity.
Qed.

Lemma createMainWindow_stores (env : Env) (s : SettingsStore) (vs : VencordStore) :
  Settings (createMainWindow env s vs) = s
  /\ VencordSettings (createMainWindow env s vs) = vs
  /\ applicationMenu (createMainWindow env s vs) = initMenuBar (env_isWindows env) vs
  /\ on_page_title_updated (w_listeners (mainWin (createMainWindow env s vs)))
     = (if truthy (s_staticTitle s) then [KeepTitle] else []).
Proof.
  unfold createMainWindow.
  destruct (truthy (s_staticTitle s)), (nullish (s_tray s) true);
    repeat split; reflexivity.
Qed.

Lemma fixedPart_run (st : State) (evs : list Event) :
  wf st -> fixedPart (run st evs) = fixedPart st.
Proof.
  unfold run. revert st. induction evs as [|ev evs IH]; intros st H; simpl; [done|].
  rewrite IH by by apply wf_step. by apply fixedPart_step.
Qed.

(** X1.  The application menu, the loaded URL, the frame and the user agent
    are decided by the stores as they are when [createMainWindow] runs; no
    later event, a change of [winCtrlQ], [frameless] or [discordBranch]
    included, alters them. *)
Theorem construction_is_final (env : Env) (s : SettingsStore) (vs : VencordStore)
    (evs : list Event) :
  let st := run (createMainWindow env s vs) evs in
  applicationMenu st = initMenuBar (env_isWindows env) vs
  /\ w_url (mainWin st) = Some (loadedURL s)
  /\ w_frame (mainWin st) = is_not_true (v_frameless vs)
  /\ w_userAgent (mainWin st) = Some userAgent.
Proof.
  intros st.
  destruct (fixedPart_inv _ _ (fixedPart_run _ evs (wf_createMainWindow env s vs)))
    as (E1 & E2 & E3 & E4 & _).
  fold st in E1, E2, E3, E4. rewrite E1, E2, E3, E4.
  destruct (createMainWindow_window env s vs) as (Hf & _ & _ & _ & _ & _ & Hu & _).
  destruct (createMainWindow_stores env s vs) as (_ & _ & Hm & _).
  destruct (windowOptions_chrome s vs) as (Ho & _).
  rewrite Hm, w_url_createMainWindow, Hf, Hu, Ho. done.
Qed.

(** ** The title *)

Lemma static_title_run (st : State) (evs : list Event) :
  wf st ->
  on_page_title_updated (w_listeners (mainWin st)) = [KeepTitle] ->
  w_title (mainWin (run st evs)) = w_title (mainWin st).
Proof.
  unfold run. revert st. induction evs as [|ev evs IH]; intros st H Hl; simpl; [done|].
  destruct (fixedPart_inv _ _ (fixedPart_step st ev H)) as (_ & _ & _ & _ & Hl').
  rewrite IH; [| by apply wf_step | by rewrite Hl'].
  assert (D : (exists t, ev = EvPageTitleUpdated t) \/ (forall t, ev <> EvPageTitleUpdated t))
    by (destruct ev; (by right) || (left; by eexists)).
  destruct D as [[t ->] | Hne]; [|by apply title_step].
  unfold step. destruct (w_destroyed (mainWin st)); [done|].
  unfold pageTitleUpdated. by rewrite Hl.
Qed.

(** X2.  When [staticTitle] is true at construction, the window title is
    "Vencord" after every sequence of events: title updates of the page are
    suppressed, and a later change of the setting does not lift that. *)
Theorem static_title_stays (env : Env) (s : SettingsStore) (vs : VencordStore)
    (evs : list Event) :
  truthy (s_staticTitle s) = true ->
  w_title (mainWin (run (createMainWindow env s vs) evs)) = Some "Vencord".
Proof.
  intros Hs.
  destruct (createMainWindow_window env s vs) as (_ & Ht & _).
  destruct (createMainWindow_stores env s vs) as (_ & _ & _ & Hl).
  destruct (windowOptions_chrome s vs) as (_ & Ho & _).
  rewrite Hs in Hl, Ho.
  rewrite static_title_run; [by rewrite Ht, Ho | apply wf_createMainWindow | exact Hl].
Qed.

(** X3.  When [staticTitle] is not true at construction, a title update of
    the page on a live window becomes the window title, also after the
    setting has been switched on: no listener watches [staticTitle]. *)
Theorem title_follows_page (env : Env) (s : SettingsStore) (vs : VencordStore)
    (evs : list Event) (title : string) :
  truthy (s_staticTitle s) = false ->
  let st := run (createMainWindow env s vs) evs in
  w_destroyed (mainWin st) = false ->
  w_title (mainWin (step st (EvPageTitleUpdated title))) = Some title.
Proof.
  intros Hs st Halive.
  destruct (fixedPart_inv _ _ (fixedPart_run _ evs (wf_createMainWindow env s vs)))
    as (_ & _ & _ & _ & El).
  fold st in El.
  destruct (createMainWindow_stores env s vs) as (_ & _ & _ & Hl).
  rewrite Hs in Hl. rewrite Hl in El.
  rewrite step_title by exact Halive. unfold pageTitleUpdated. by rewrite El.
Qed.

(** ** Translucency and minimum size *)

Lemma translucencyInv_step (st : State) (ev : Event) :
  wf st -> translucencyInv st -> translucencyInv (step st ev).
Proof.
  intros H Hinv.
  assert (D : (exists v, ev = EvSetVencord KMacosTranslucency v)
              \/ (forall v, ev <> EvSetVencord KMacosTranslucency v)).
  { destruct ev as [| | | | | | | | | | | | | | | |k v]; try (by right).
    destruct k; try (by right). left. by eexists. }
  destruct D as [[v ->] | Hne].
  - destruct (w_destroyed (mainWin st)) eqn:Halive.
    { unfold step. by rewrite Halive. }
    rewrite step_set_macosTranslucency by done. simpl.
    case_bool_decide as Hv.
    + unfold translucencyInv in *. simpl. by rewrite <- Hv.
    + unfold translucencyInv, onMacosTranslucencyChange.
      destruct (truthy v) eqn:Etv; simpl; rewrite Etv; auto.
  - destruct (tuple3_inv _ _ _ _ _ _ (translucencyPart_step st ev H Hne)) as (E1 & E2 & E3).
    unfold translucencyInv. by rewrite E1, E2, E3.
Qed.

Lemma minSizeInv_step (st : State) (ev : Event) :
  wf st -> minSizeInv st -> minSizeInv (step st ev).
Proof.
  intros H Hinv.
  assert (D : (exists v, ev = EvSetSetting KDisableMinSize v)
              \/ (forall v, ev <> EvSetSetting KDisableMinSize v)).
  { destruct ev as [| | | | | | | | | | | | | |k v| |]; try (by right).
    destruct k; try (by right). left. by eexists. }
  destruct D as [[v ->] | Hne].
  - destruct (w_destroyed (mainWin st)) eqn:Halive.
    { unfold step. by rewrite Halive. }
    rewrite step_set_disableMinSize by done. simpl.
    case_bool_decide as Hv.
    + unfold minSizeInv in *. simpl. by rewrite <- Hv.
    + unfold minSizeInv, onDisableMinSizeChange.
      destruct (truthy v) eqn:Etv; simpl; rewrite Etv; auto.
  - destruct (tuple3_inv _ _ _ _ _ _ (minSizePart_step st ev H Hne)) as (E1 & E2 & E3).
    unfold minSizeInv. by rewrite E1, E2, E3.
Qed.

Lemma translucencyInv_run (st : State) (evs : list Event) :
  wf st -> translucencyInv st -> translucencyInv (run st evs).
Proof.
  unfold run. revert st. induction evs as [|ev evs IH]; intros st H Hinv; simpl; [done|].
  apply IH; [by apply wf_step | by apply translucencyInv_step].
Qed.

Lemma minSizeInv_run (st : State) (evs : list Event) :
  wf st -> minSizeInv st -> minSizeInv (run st evs).
Proof.
  unfold run. revert st. induction evs as [|ev evs IH]; intros st H Hinv; simpl; [done|].
  apply IH; [by apply wf_step | by apply minSizeInv_step].
Qed.

(** X4.  After every sequence of events the window has the sidebar vibrancy
    and the transparent background exactly when [macosTranslucency] is
    true; otherwise it has no vibrancy and its background is the toolkit's
    default or opaque white. *)
Theorem translucency_follows_setting (env : Env) (s : SettingsStore) (vs : VencordStore)
    (evs : list Event) :
  let st := run (createMainWindow env s vs) evs in
  if truthy (v_macosTranslucency (VencordSettings st))
  then w_vibrancy (mainWin st) = Some "sidebar"
       /\ w_backgroundColor (mainWin st) = Some "#ffffff00"
  else w_vibrancy (mainWin st) = None
       /\ (w_backgroundColor (mainWin st) = None
           \/ w_backgroundColor (mainWin st) = Some "#ffffff").
Proof.
  apply (translucencyInv_run _ evs (wf_createMainWindow env s vs)).
  unfold translucencyInv.
  destruct (createMainWindow_window env s vs) as (_ & _ & Hv & Hb & _).
  destruct (createMainWindow_stores env s vs) as (_ & -> & _).
  destruct (windowOptions_chrome s vs) as (_ & _ & Hov & Hob & _).
  rewrite Hv, Hb, Hov, Hob. destruct (truthy (v_macosTranslucency vs)); auto.
Qed.

(** X5.  After every sequence of events, while [disableMinSize] is not true
    the window's minimum size is MIN_WIDTH by MIN_HEIGHT; while it is true
    the minimum size is the toolkit's default (0 by 0, when it was true at
    construction) or 1 by 1 (when it became true later). *)
Theorem min_size_follows_setting (env : Env) (s : SettingsStore) (vs : VencordStore)
    (evs : list Event) :
  let st := run (createMainWindow env s vs) evs in
  if truthy (s_disableMinSize (Settings st))
  then (w_minWidth (mainWin st) = 0 /\ w_minHeight (mainWin st) = 0)
       \/ (w_minWidth (mainWin st) = 1 /\ w_minHeight (mainWin st) = 1)
  else w_minWidth (mainWin st) = MIN_WIDTH /\ w_minHeight (mainWin st) = MIN_HEIGHT.
Proof.
  apply (minSizeInv_run _ evs (wf_createMainWindow env s vs)).
  unfold minSizeInv.
  destruct (createMainWindow_window env s vs) as (_ & _ & _ & _ & Hw & Hh & _).
  destruct (createMainWindow_stores env s vs) as (-> & _).
  destruct (windowOptions_chrome s vs) as (_ & _ & _ & _ & How & Hoh).
  rewrite Hw, Hh, How, Hoh. destruct (truthy (s_disableMinSize s)); auto.
Qed.

(** ** Geometry *)

Lemma windowOptions_bounds (s : SettingsStore) (vs : VencordStore) :
  let o := windowOptions s vs in
  o_width o = Some (nullish (persisted sb_width s) DEFAULT_WIDTH)
  /\ o_height o = Some (nullish (persisted sb_height s) DEFAULT_HEIGHT)
  /\ forall env, initialPosition env o
       = match persisted sb_x s, persisted sb_y s with
         | Some x, Some y => (x, y)
         | _, _ => (env_x env, env_y env)
         end.
Proof.
  unfold windowOptions, getWindowBoundsOptions, persisted, initialPosition.
  destruct (s_windowBounds s) as [[[x|] [y|] [w|] [h|]]|];
    destruct (truthy (s_disableMinSize s));
    destruct (truthy (s_staticTitle s)), (truthy (v_macosTranslucency vs));
    repeat split; reflexivity.
Qed.

(** X6.  A new window takes its size from the persisted bounds, each
    dimension falling back to its default constant, and takes the persisted
    position only when both coordinates are stored; with one or none stored,
    both coordinates are the ones the toolkit chooses. *)
Theorem initial_geometry (env : Env) (s : SettingsStore) (vs : VencordStore) :
  w_bounds (mainWin (createMainWindow env s vs))
  = mkRectangle
      (match persisted sb_x s, persisted sb_y s with
       | Some x, Some _ => x
       | _, _ => env_x env
       end)
      (match persisted sb_x s, persisted sb_y s with
       | Some _, Some y => y
       | _, _ => env_y env
       end)
      (nullish (persisted sb_width s) DEFAULT_WIDTH)
      (nullish (persisted sb_height s) DEFAULT_HEIGHT).
Proof.
  destruct (createMainWindow_window env s vs) as (_ & _ & _ & _ & _ & _ & _ & _ & Hb).
  destruct (windowOptions_bounds s vs) as (Hw & Hh & Hp).
  rewrite Hb, Hw, Hh, (Hp env).
  by destruct (persisted sb_x s), (persisted sb_y s).
Qed.

(** X7.  The bounds saved on a move or resize of a live window are the
    bounds a window constructed from the resulting store starts with,
    whatever the platform and the other settings. *)
Theorem saved_bounds_round_trip (env : Env) (s : SettingsStore) (vs : VencordStore)
    (evs : list Event) (r : Rectangle) (ev : Event) (env' : Env) (vs' : VencordStore) :
  let st := run (createMainWindow env s vs) evs in
  w_destroyed (mainWin st) = false ->
  ev = EvMove r \/ ev = EvResize r ->
  w_bounds (mainWin (createMainWindow env' (Settings (step st ev)) vs')) = r.
Proof.
  intros st Halive Hev.
  rewrite (step_bounds_event st r ev (wf_reachable _ _ _ _) Halive Hev).
  destruct (createMainWindow_window env'
              (Settings (store_set_windowBounds r (on_win (w_set_bounds r) st))) vs')
    as (_ & _ & _ & _ & _ & _ & _ & _ & Hb).
  destruct (windowOptions_bounds
              (Settings (store_set_windowBounds r (on_win (w_set_bounds r) st))) vs')
    as (Hw & Hh & Hp).
  rewrite Hb, Hw, Hh, (Hp env'). by destruct r.
Qed.

Lemma set_Settings_on_win (f : Window -> Window) (s' : SettingsStore) (st : State) :
  set_Settings s' (on_win f st) = on_win f (set_Settings s' st).
Proof. by destruct st. Qed.

Lemma set_Settings_initTray (s' : SettingsStore) (st : State) :
  set_Settings s' (initTray st) = initTray (set_Settings s' st).
Proof. by destruct st. Qed.

Lemma set_Settings_applicationMenu (m : list TopItem) (s' : SettingsStore) (st : State) :
  set_Settings s' (set_applicationMenu m st) = set_applicationMenu m (set_Settings s' st).
Proof. by destruct st. Qed.

Lemma set_Settings_log_effect (e : Effect) (s' : SettingsStore) (st : State) :
  set_Settings s' (log_effect e st) = log_effect e (set_Settings s' st).
Proof. by destruct st. Qed.

Lemma set_Settings_initSettingsListeners (s' : SettingsStore) (st : State) :
  set_Settings s' (initSettingsListeners st) = initSettingsListeners (set_Settings s' st).
Proof. by destruct st. Qed.

(** X8.  The stored [maximized] and [minimized] flags play no part in
    constructing the window: changing either in the store changes nothing
    of what [createMainWindow] builds except the store it carries. *)
Theorem window_state_flags_unused (env : Env) (s : SettingsStore) (vs : VencordStore)
    (k : SKey) (v : option bool) :
  k = KMaximized \/ k = KMinimized ->
  createMainWindow env (put_setting k v s) vs
  = set_Settings (put_setting k v s) (createMainWindow env s vs).
Proof.
  intros Hk.
  assert (Ho : windowOptions (put_setting k v s) vs = windowOptions s vs)
    by (destruct Hk as [-> | ->]; by destruct s).
  assert (Ht : s_staticTitle (put_setting k v s) = s_staticTitle s)
    by (by destruct Hk as [-> | ->]).
  assert (Hy : s_tray (put_setting k v s) = s_tray s)
    by (by destruct Hk as [-> | ->]).
  assert (Hu : loadedURL (put_setting k v s) = loadedURL s)
    by (by destruct Hk as [-> | ->]).
  unfold createMainWindow. rewrite Ho, Ht, Hy, Hu.
  generalize (put_setting k v s) (newBrowserWindow env (windowOptions s vs))
             (initMenuBar (env_isWindows env) vs) (loadedURL s).
  intros s' w menu url.
  unfold initWindowBoundsListeners, on_listeners.
  destruct (truthy (s_staticTitle s)), (nullish (s_tray s) true);
    rewrite ?set_Settings_on_win, ?set_Settings_initSettingsListeners,
            ?set_Settings_log_effect, ?set_Settings_applicationMenu,
            ?set_Settings_initTray, ?set_Settings_on_win;
    reflexivity.
Qed.

(** ** Invariants of the listeners and tray objects

    A property of the part of the state that [wf] looks at holds in every
    reachable state once it survives the four operations that change that
    part. *)
Section ShapeInvariant.

Variable P : State -> Prop.
Hypothesis P_ext : forall st st', shape st = shape st' -> P st -> P st'.
Hypothesis P_show : forall st, wf st -> P st -> P (win_show st).
Hypothesis P_hide : forall st, wf st -> P st -> P (win_hide st).
Hypothesis P_initTray : forall st, wf st -> P st -> P (initTray st).
Hypothesis P_destroy : forall st, wf st -> P st -> P (destroy_current_tray st).

Ltac same_P :=
  match goal with
  | H : P ?st |- P _ => apply (P_ext st); [by destruct_state st | exact H]
  end.

Lemma shape_run_listener (l : ChangeListener) (v : option bool) (st : State) :
  wf st -> P st -> P (run_listener l v st).
Proof.
  intros H HP. destruct l; simpl.
  - unfold onTrayChange. destruct (truthy v); [by apply P_initTray | by apply P_destroy].
  - unfold onDisableMinSizeChange. destruct (truthy v); same_P.
  - unfold onMacosTranslucencyChange. destruct (truthy v); same_P.
Qed.

Lemma shape_notify {K} `{EqDecision K} (k : K) (v : option bool)
    (ls : list (K * ChangeListener)) (st : State) :
  wf st -> P st -> P (notify k v ls st).
Proof.
  unfold notify. revert st. induction ls as [|kl ls IH]; intros st H HP; simpl; [done|].
  case_bool_decide; [|by apply IH].
  apply IH; [by apply wf_run_listener | by apply shape_run_listener].
Qed.

Lemma shape_store_set (k : SKey) (v : option bool) (st : State) :
  wf st -> P st -> P (store_set k v st).
Proof.
  intros H HP. unfold store_set.
  assert (wf (log_write (WrBool k v) (set_Settings (put_setting k v (Settings st)) st)))
    by same_shape.
  assert (P (log_write (WrBool k v) (set_Settings (put_setting k v (Settings st)) st)))
    by same_P.
  case_bool_decide; [done|]. by apply shape_notify.
Qed.

Lemma shape_vencord_set (k : VKey) (v : option bool) (st : State) :
  wf st -> P st -> P (vencord_set k v st).
Proof.
  intros H HP. unfold vencord_set.
  assert (wf (set_VencordSettings (put_vencord k v (VencordSettings st)) st))
    by same_shape.
  assert (P (set_VencordSettings (put_vencord k v (VencordSettings st)) st))
    by same_P.
  case_bool_decide; [done|]. by apply shape_notify.
Qed.

Lemma shape_run_click (st : State) (c : Click) : wf st -> P st -> P (run_click st c).
Proof.
  intros H HP. destruct c; simpl; try same_P. by apply P_show.
Qed.

Lemma shape_activate (i : MenuItem) (st : State) : wf st -> P st -> P (activate i st).
Proof.
  intros H HP. unfold activate. destruct (mi_enabled i); [|done].
  destruct (mi_role i) as [r|].
  - case_bool_decide; same_P.
  - destruct (mi_click i); [by apply shape_run_click | done].
Qed.

Lemma shape_step (st : State) (ev : Event) : wf st -> P st -> P (step st ev).
Proof.
  intros H HP. unfold step. destruct (w_destroyed (mainWin st)); [done|].
  destruct ev.
  - same_P.
  - by apply P_show.
  - by apply P_hide.
  - assert (H' : wf (on_win (w_set_bounds r) st)) by by apply wf_on_win.
    rewrite (wf_move _ H'). same_P.
  - assert (H' : wf (on_win (w_set_bounds r) st)) by by apply wf_on_win.
    rewrite (wf_resize _ H'). same_P.
  - assert (H' : wf (on_win (w_set_state maximized minimized) st)) by by apply wf_on_win.
    rewrite (wf_maximize _ H'). simpl. rewrite saveState_eq by done. same_P.
  - assert (H' : wf (on_win (w_set_state maximized minimized) st)) by by apply wf_on_win.
    rewrite (wf_minimize _ H'). simpl. rewrite saveState_eq by done. same_P.
  - assert (H' : wf (on_win (w_set_state maximized minimized) st)) by by apply wf_on_win.
    rewrite (wf_unmaximize _ H'). simpl. rewrite saveState_eq by done. same_P.
  - rewrite requestClose_eq by done.
    destruct (_ || _); [same_P | by apply P_hide].
  - unfold pageTitleUpdated. destruct (existsb _ _); [done | same_P].
  - unfold trayClick. destruct (trays st !! t) as [tr|]; [|done].
    destruct (tr_destroyed tr); [done|].
    generalize (tr_on_click tr). intros cs. revert st H HP.
    induction cs as [|c cs IH]; intros st H HP; simpl; [done|].
    apply IH; [by apply wf_run_click | by apply shape_run_click].
  - unfold trayMenuClick. destruct (trays st !! t) as [tr|]; [|done].
    destruct (tr_destroyed tr); [done|].
    destruct (menuItem st (tr_contextMenu tr) i); [by apply shape_activate | done].
  - unfold appMenuClick. destruct (applicationMenu st) as [|top ?]; [done|].
    destruct (ti_submenu top !! i); [by apply shape_activate | done].
  - unfold downloadDone. destruct (pendingDownloads st); [done|]. same_P.
  - by apply shape_store_set.
  - unfold store_set_discordBranch. same_P.
  - by apply shape_vencord_set.
Qed.

Lemma shape_run (st : State) (evs : list Event) : wf st -> P st -> P (run st evs).
Proof.
  unfold run. revert st. induction evs as [|ev evs IH]; intros st H HP; simpl; [done|].
  apply IH; [by apply wf_step | by apply shape_step].
Qed.

End ShapeInvariant.

Lemma menusInv_run (st : State) (evs : list Event) :
  wf st -> menusInv st -> menusInv (run st evs).
Proof.
  apply (shape_run menusInv).
  - unfold shape, menusInv. intros a b E. by injection E as _ -> -> _ _ _.
  - intros a H [Hm Ht]. rewrite win_show_eq by done. split; [|exact Ht].
    simpl. apply Forall_map. eapply Forall_impl; [exact Hm|].
    intros items [b ->]. exists false. by destruct b.
  - intros a H [Hm Ht]. rewrite win_hide_eq by done. split; [|exact Ht].
    simpl. apply Forall_map. eapply Forall_impl; [exact Hm|].
    intros items [b ->]. exists true. by destruct b.
  - intros a H [Hm Ht]. split; simpl.
    + apply Forall_app. split; [exact Hm|]. constructor; [by exists false | done].
    + apply Forall_app. split; [exact Ht|]. by constructor.
  - intros a H [Hm Ht]. unfold destroy_current_tray.
    destruct (tray a) as [t|]; [|done]. split; [exact Hm|]. simpl.
    apply Forall_alter; [exact Ht|]. by intros tr _ Hc.
Qed.

Lemma menusInv_reachable (env : Env) (s : SettingsStore) (vs : VencordStore)
    (evs : list Event) :
  menusInv (run (createMainWindow env s vs) evs).
Proof.
  apply menusInv_run; [apply wf_createMainWindow|].
  unfold menusInv, createMainWindow.
  destruct (truthy (s_staticTitle s)), (nullish (s_tray s) true); simpl;
    split; repeat constructor; by exists false.
Qed.

(** ** The window's life and the user's preferences *)

Lemma core_inv (st st' : State) :
  core st' = core st ->
  w_destroyed (mainWin st') = w_destroyed (mainWin st) /\ prefs st' = prefs st.
Proof.
  unfold core. intros E. split; [exact (f_equal fst E) | exact (f_equal snd E)].
Qed.

Lemma core_win_show (st : State) : core (win_show st) = core st.
Proof. unfold win_show, emit_show. by rewrite foldl_set_open_enabled. Qed.

Lemma core_win_hide (st : State) : core (win_hide st) = core st.
Proof. unfold win_hide, emit_hide. by rewrite foldl_set_open_enabled. Qed.

Lemma core_run_click (st : State) (c : Click) : core (run_click st c) = core st.
Proof. destruct c; try reflexivity. apply core_win_show. Qed.

Lemma core_activate (i : MenuItem) (st : State) : core (activate i st) = core st.
Proof.
  unfold activate. destruct (mi_enabled i); [|done].
  destruct (mi_role i) as [r|].
  - by case_bool_decide.
  - destruct (mi_click i); [apply core_run_click | done].
Qed.

Lemma core_step (st : State) (ev : Event) :
  wf st -> ev <> EvClose -> isStoreWrite ev = false ->
  core (step st ev) = core st.
Proof.
  intros H Hc Hw. unfold step. destruct (w_destroyed (mainWin st)); [done|].
  destruct ev; try done.
  - apply core_win_show.
  - apply core_win_hide.
  - assert (H' : wf (on_win (w_set_bounds r) st)) by by apply wf_on_win.
    by rewrite (wf_move _ H').
  - assert (H' : wf (on_win (w_set_bounds r) st)) by by apply wf_on_win.
    by rewrite (wf_resize _ H').
  - assert (H' : wf (on_win (w_set_state maximized minimized) st)) by by apply wf_on_win.
    rewrite (wf_maximize _ H'). simpl. by rewrite saveState_eq.
  - assert (H' : wf (on_win (w_set_state maximized minimized) st)) by by apply wf_on_win.
    rewrite (wf_minimize _ H'). simpl. by rewrite saveState_eq.
  - assert (H' : wf (on_win (w_set_state maximized minimized) st)) by by apply wf_on_win.
    rewrite (wf_unmaximize _ H'). simpl. by rewrite saveState_eq.
  - unfold pageTitleUpdated. by destruct (existsb _ _).
  - unfold trayClick. destruct (trays st !! t) as [tr|]; [|done].
    destruct (tr_destroyed tr); [done|].
    generalize (tr_on_click tr). intros cs.
    assert (G : forall st0, core st0 = core st -> core (foldl run_click st0 cs) = core st).
    { induction cs as [|c cs IH]; intros st0 H0; simpl; [done|].
      apply IH. by rewrite core_run_click. }
    by apply G.
  - unfold trayMenuClick. destruct (trays st !! t) as [tr|]; [|done].
    destruct (tr_destroyed tr); [done|].
    destruct (menuItem st (tr_contextMenu tr) i); [apply core_activate | done].
  - unfold appMenuClick. destruct (applicationMenu st) as [|top ?]; [done|].
    destruct (ti_submenu top !! i); [apply core_activate | done].
  - unfold downloadDone. by destruct (pendingDownloads st).
Qed.

Lemma alive_run_listener (l : ChangeListener) (v : option bool) (st : State) :
  w_destroyed (mainWin (run_listener l v st)) = w_destroyed (mainWin st).
Proof.
  destruct l; simpl.
  - unfold onTrayChange, destroy_current_tray.
    destruct (truthy v); [done|]. by destruct (tray st).
  - unfold onDisableMinSizeChange. by destruct (truthy v).
  - unfold onMacosTranslucencyChange. by destruct (truthy v).
Qed.

Lemma alive_notify {K} `{EqDecision K} (k : K) (v : option bool)
    (ls : list (K * ChangeListener)) (st : State) :
  w_destroyed (mainWin (notify k v ls st)) = w_destroyed (mainWin st).
Proof.
  unfold notify. revert st. induction ls as [|kl ls IH]; intros st; simpl; [done|].
  rewrite IH. case_bool_decide; [apply alive_run_listener | done].
Qed.

Lemma alive_step (st : State) (ev : Event) :
  wf st -> ev <> EvClose ->
  w_destroyed (mainWin (step st ev)) = w_destroyed (mainWin st).
Proof.
  intros H Hc. destruct (isStoreWrite ev) eqn:Hw.
  - unfold step. destruct (w_destroyed (mainWin st)) eqn:Halive; [done|].
    destruct ev; try done.
    + unfold store_set. case_bool_decide; [done|]. by rewrite alive_notify.
    + unfold vencord_set. case_bool_decide; [done|]. by rewrite alive_notify.
  - exact (proj1 (core_inv _ _ (core_step st ev H Hc Hw))).
Qed.

(** X9.  The module never changes a preference on its own: an event other
    than an assignment by the rest of the application leaves [tray],
    [minimizeToTray], [disableMinSize], [staticTitle], [discordBranch] and
    the whole of [VencordSettings.store] as they are; its own writes go to
    [windowBounds], [maximized] and [minimized] only. *)
Theorem preferences_untouched (env : Env) (s : SettingsStore) (vs : VencordStore)
    (evs : list Event) (ev : Event) :
  isStoreWrite ev = false ->
  let st := run (createMainWindow env s vs) evs in
  prefs (step st ev) = prefs st.
Proof.
  intros Hw st.
  assert (H : wf st) by apply wf_reachable.
  assert (D : ev = EvClose \/ ev <> EvClose) by (destruct ev; (by left) || (by right)).
  destruct D as [-> | Hc].
  - unfold step. destruct (w_destroyed (mainWin st)); [done|].
    rewrite requestClose_eq by done.
    destruct (_ || _); [done|].
    exact (proj2 (core_inv _ _ (core_win_hide st))).
  - exact (proj2 (core_inv _ _ (core_step st ev H Hc Hw))).
Qed.

(** ** Quitting *)

Lemma close_when_quitting (st : State) :
  wf st -> w_destroyed (mainWin st) = false -> isQuitting st = true ->
  w_destroyed (mainWin (step st EvClose)) = true.
Proof.
  intros H Halive Hq. unfold step. rewrite Halive, requestClose_eq by done.
  by rewrite Hq.
Qed.

Lemma quitCalls_close (st : State) :
  wf st -> quitCalls (step st EvClose) = quitCalls st.
Proof.
  intros H. unfold step. destruct (w_destroyed (mainWin st)); [done|].
  rewrite requestClose_eq by done. destruct (_ || _); [done|].
  destruct (quiet_win_hide st) as [_ He]. unfold quitCalls. by rewrite He.
Qed.

(** X10.  Once shutdown has begun on a live window, by the before-quit
    notification or by any event during which [app.quit()] is called (tray
    Quit, Relaunch, a menu Quit item, the end of an update), the next close
    request closes the window, whatever [minimizeToTray] and [tray] hold. *)
Theorem quit_then_close (env : Env) (s : SettingsStore) (vs : VencordStore)
    (evs : list Event) (ev : Event) :
  let st := run (createMainWindow env s vs) evs in
  w_destroyed (mainWin st) = false ->
  ev = EvBeforeQuit \/ (quitCalls st < quitCalls (step st ev))%nat ->
  w_destroyed (mainWin (step (step st ev) EvClose)) = true.
Proof.
  intros st Halive Hev.
  assert (H : wf st) by apply wf_reachable.
  assert (Hb : w_destroyed (mainWin (step st EvBeforeQuit)) = false
               /\ isQuitting (step st EvBeforeQuit) = true).
  { unfold step. by rewrite Halive. }
  assert (D : ev = EvBeforeQuit \/ ev <> EvBeforeQuit)
    by (destruct ev; (by left) || (by right)).
  destruct D as [-> | Hne].
  { apply close_when_quitting; [by apply wf_step | apply Hb | apply Hb]. }
  destruct Hev as [-> | Hcalls]; [done|].
  assert (Hc : ev <> EvClose).
  { intros ->. rewrite quitCalls_close in Hcalls by done. lia. }
  apply close_when_quitting; [by apply wf_step | by rewrite alive_step |].
  destruct (quitStep_step st ev H Hne) as [[_ E] | [E _]]; [lia | exact E].
Qed.

(** ** The menus *)

Lemma applicationMenu_reachable (env : Env) (s : SettingsStore) (vs : VencordStore)
    (evs : list Event) :
  applicationMenu (run (createMainWindow env s vs) evs) = initMenuBar (env_isWindows env) vs.
Proof.
  destruct (fixedPart_inv _ _ (fixedPart_run _ evs (wf_createMainWindow env s vs)))
    as (E & _).
  rewrite E. apply createMainWindow_stores.
Qed.

(** X11.  Force Update in the application menu only starts the download: it
    neither sets [isQuitting] nor calls [app.relaunch()] or [app.quit()], so
    a close request is still handled as before; when the download
    completes, the application relaunches and then quits, and [isQuitting]
    is set. *)
Theorem update_defers_quit (env : Env) (s : SettingsStore) (vs : VencordStore)
    (evs : list Event) :
  let st := run (createMainWindow env s vs) evs in
  w_destroyed (mainWin st) = false ->
  let st1 := step st (EvAppMenuClick 1) in
  let st2 := step st1 EvDownloadDone in
  effects st1 = effects st ++ [EffDownload]
  /\ isQuitting st1 = isQuitting st
  /\ hidesOnClose st1 = hidesOnClose st
  /\ effects st2 = effects st ++ [EffDownload; EffRelaunch; EffQuit]
  /\ isQuitting st2 = true.
Proof.
  intros st Halive st1 st2.
  assert (E1 : st1 = set_pendingDownloads (S (pendingDownloads st)) (log_effect EffDownload st)).
  { subst st1. unfold step. rewrite Halive. unfold appMenuClick.
    unfold st. by rewrite applicationMenu_reachable. }
  assert (E2 : st2 = app_quit (log_effect EffRelaunch
                                 (set_pendingDownloads (pendingDownloads st) st1))).
  { subst st2. rewrite E1. unfold step. simpl. by rewrite Halive. }
  rewrite E2, E1. simpl. rewrite <- !app_assoc. done.
Qed.

Lemma trayMenu_lookup (st : State) (t : nat) (tr : Tray) :
  wf st -> menusInv st -> trays st !! t = Some tr ->
  tr_contextMenu tr = Some t
  /\ tr_on_click tr = [ClickShowWin]
  /\ exists b : bool,
       trayMenus st !! t = Some (alter (set_enabled b) 0%nat (buildFromTemplate trayTemplate)).
Proof.
  intros H [Hm Hc] Ht. split; [by apply (wf_trays_menu _ H t)|].
  split; [by apply (proj1 (Forall_lookup _ _) Hc t)|].
  assert (Hlt : (t < length (trayMenus st))%nat).
  { rewrite <- (wf_trays_length _ H). by eapply lookup_lt_Some. }
  destruct (lookup_lt_is_Some_2 _ _ Hlt) as [items Hitems].
  destruct (proj1 (Forall_lookup _ _) Hm t items Hitems) as [b ->]. by exists b.
Qed.

(** X12.  The application menu mirrors the tray menu: on a live window and
    for any tray icon that exists, About, Update and Relaunch of the tray
    menu lead to the same state as About, Force Update and Relaunch of the
    application menu, and the tray's Quit to the same state as each of the
    three Quit items of the application menu. *)
Theorem menu_mirrors_tray (env : Env) (s : SettingsStore) (vs : VencordStore)
    (evs : list Event) (t : nat) (tr : Tray) :
  let st := run (createMainWindow env s vs) evs in
  w_destroyed (mainWin st) = false ->
  trays st !! t = Some tr -> tr_destroyed tr = false ->
  step st (EvTrayMenuClick t 1) = step st (EvAppMenuClick 0)
  /\ step st (EvTrayMenuClick t 2) = step st (EvAppMenuClick 1)
  /\ step st (EvTrayMenuClick t 4) = step st (EvAppMenuClick 2)
  /\ step st (EvTrayMenuClick t 5) = step st (EvAppMenuClick 3)
  /\ step st (EvTrayMenuClick t 5) = step st (EvAppMenuClick 4)
  /\ step st (EvTrayMenuClick t 5) = step st (EvAppMenuClick 6).
Proof.
  intros st Halive Ht Hlive.
  destruct (trayMenu_lookup st t tr (wf_reachable _ _ _ _) (menusInv_reachable _ _ _ _) Ht)
    as (Hmenu & _ & b & Hitems).
  assert (Happ : applicationMenu st = initMenuBar (env_isWindows env) vs)
    by apply applicationMenu_reachable.
  unfold step. rewrite Halive. unfold trayMenuClick, appMenuClick, menuItem.
  rewrite Ht, Hlive, Hmenu, Hitems, Happ.
  destruct b; simpl; repeat split; reflexivity.
Qed.

(** ** Hiding to the tray and coming back *)

Lemma openEnabled_lookup (st : State) (m : nat) (b : bool) :
  trayMenus st !! m = Some (alter (set_enabled b) 0%nat (buildFromTemplate trayTemplate)) ->
  openEnabled st m = Some b.
Proof. intros E. unfold openEnabled, menuItem. by rewrite E. Qed.

(** X13.  A close that is cancelled hides a live window and enables Open in
    the menu of every tray icon that exists; from there a click on the tray
    icon and a click on Open lead to the same state, in which the window is
    visible again, still alive, and Open is disabled. *)
Theorem tray_click_restores (env : Env) (s : SettingsStore) (vs : VencordStore)
    (evs : list Event) (t : nat) (tr : Tray) :
  let st := run (createMainWindow env s vs) evs in
  w_destroyed (mainWin st) = false ->
  hidesOnClose st = true ->
  trays st !! t = Some tr -> tr_destroyed tr = false ->
  let st1 := step st EvClose in
  let st2 := step st1 (EvTrayClick t) in
  w_destroyed (mainWin st1) = false
  /\ w_visible (mainWin st1) = false
  /\ openEnabled st1 t = Some true
  /\ step st1 (EvTrayMenuClick t 0) = st2
  /\ w_destroyed (mainWin st2) = false
  /\ w_visible (mainWin st2) = true
  /\ openEnabled st2 t = Some false.
Proof.
  intros st Halive Hhide Ht Hlive st1 st2.
  assert (H : wf st) by apply wf_reachable.
  assert (E1 : st1 = win_hide st).
  { subst st1. unfold step. rewrite Halive, requestClose_eq by done.
    unfold hidesOnClose in Hhide. by destruct (_ || _). }
  assert (H1 : wf st1) by (rewrite E1; by apply wf_win_hide).
  assert (M1 : menusInv st1)
    by (apply (menusInv_run st [EvClose]); [exact H | apply menusInv_reachable]).
  assert (Ht1 : trays st1 !! t = Some tr).
  { rewrite E1, win_hide_eq by done. exact Ht. }
  assert (A1 : w_destroyed (mainWin st1) = false).
  { rewrite E1, win_hide_eq by done. exact Halive. }
  assert (V1 : w_visible (mainWin st1) = false).
  { by rewrite E1, win_hide_eq by done. }
  destruct (trayMenu_lookup st t tr H (menusInv_reachable _ _ _ _) Ht) as (_ & _ & b & Hb).
  assert (O1 : trayMenus st1 !! t
               = Some (alter (set_enabled true) 0%nat (buildFromTemplate trayTemplate))).
  { rewrite E1, win_hide_eq by done. simpl. rewrite list_lookup_fmap, Hb. by destruct b. }
  destruct (trayMenu_lookup st1 t tr H1 M1 Ht1) as (Hmenu & Hclick & _).
  assert (E2 : st2 = win_show st1).
  { subst st2. unfold step. rewrite A1. unfold trayClick. by rewrite Ht1, Hlive, Hclick. }
  assert (O2 : trayMenus st2 !! t
               = Some (alter (set_enabled false) 0%nat (buildFromTemplate trayTemplate))).
  { rewrite E2, win_show_eq by done. simpl. by rewrite list_lookup_fmap, O1. }
  repeat split.
  - exact A1.
  - exact V1.
  - by apply openEnabled_lookup.
  - rewrite E2. unfold step. rewrite A1. unfold trayMenuClick, menuItem.
    by rewrite Ht1, Hlive, Hmenu, O1.
  - rewrite E2, win_show_eq by done. exact A1.
  - by rewrite E2, win_show_eq by done.
  - by apply openEnabled_lookup.
Qed.

(** X14.  A tray created when the setting changes to true starts with Open
    disabled whatever the window's visibility: the new tray becomes the
    current one, visibility does not change, and a click on its Open item
    does nothing, so with a hidden window Open stays unusable until the
    next show or hide event. *)
Theorem recreated_tray_open_disabled (env : Env) (s : SettingsStore) (vs : VencordStore)
    (evs : list Event) :
  let st := run (createMainWindow env s vs) evs in
  w_destroyed (mainWin st) = false ->
  s_tray (Settings st) <> Some true ->
  let st' := step st (EvSetSetting KTray (Some true)) in
  tray st' = Some (length (trays st))
  /\ liveTrays st' = S (liveTrays st)
  /\ currentOpenEnabled st' = Some false
  /\ w_visible (mainWin st') = w_visible (mainWin st)
  /\ step st' (EvTrayMenuClick (length (trays st)) 0) = st'.
Proof.
  intros st Halive Hchange st'.
  assert (H : wf st) by apply wf_reachable.
  assert (E : st' = initTray (log_write (WrBool KTray (Some true))
                                (set_Settings (put_setting KTray (Some true) (Settings st)) st))).
  { subst st'. by rewrite step_set_tray. }
  assert (Ht : trays st' !! length (trays st)
               = Some (mkTray (Some "Vencord Desktop") (Some (length (trayMenus st)))
                              [ClickShowWin] false)).
  { rewrite E. simpl. by apply list_lookup_middle. }
  assert (Hm : trayMenus st' !! length (trayMenus st) = Some (buildFromTemplate trayTemplate)).
  { rewrite E. simpl. by apply list_lookup_middle. }
  assert (Hv : tray st' = Some (length (trays st))) by by rewrite E.
  repeat split.
  - exact Hv.
  - rewrite E. unfold liveTrays. simpl. rewrite List.filter_app, length_app. simpl. lia.
  - unfold currentOpenEnabled, menuItem. by rewrite Hv, Ht; simpl; rewrite Hm.
  - by rewrite E.
  - unfold step. replace (w_destroyed (mainWin st')) with false by by rewrite E.
    unfold trayMenuClick, menuItem. by rewrite Ht; simpl; rewrite Hm.
Qed.

(** X15.  As long as the [tray] setting is only assigned booleans and is not
    assigned true while absent, a close that is cancelled always leaves a
    tray icon to come back by: the window is hidden, alive, and exactly one
    tray icon exists. *)
Theorem hidden_window_has_tray (env : Env) (s : SettingsStore) (vs : VencordStore)
    (evs : list Event) :
  trayWritesOk (createMainWindow env s vs) evs = true ->
  let st := run (createMainWindow env s vs) evs in
  w_destroyed (mainWin st) = false ->
  hidesOnClose st = true ->
  let st' := step st EvClose in
  w_destroyed (mainWin st') = false
  /\ w_visible (mainWin st') = false
  /\ liveTrays st' = 1%nat.
Proof.
  intros Hok st Halive Hhide st'.
  assert (H : wf st) by apply wf_reachable.
  assert (E : st' = win_hide st).
  { subst st'. unfold step. rewrite Halive, requestClose_eq by done.
    unfold hidesOnClose in Hhide. by destruct (_ || _). }
  assert (L : liveTrays st = 1%nat).
  { rewrite (trayInv_liveTrays st).
    - unfold trayEnabled. unfold hidesOnClose in Hhide.
      destruct (s_tray (Settings st)) as [[|]|]; try done.
      by rewrite !orb_true_r in Hhide.
    - apply trayInv_run;
        [apply wf_createMainWindow | apply trayInv_createMainWindow | exact Hok]. }
  rewrite E, win_hide_eq by done. repeat split; [exact Halive | exact L].
Qed.

(** ** What is never cleaned up *)

Lemma trays_length_step (n : nat) (st : State) (ev : Event) :
  wf st -> (n <= length (trays st))%nat -> (n <= length (trays (step st ev)))%nat.
Proof.
  apply (shape_step (fun st => (n <= length (trays st))%nat)).
  - unfold shape. intros a b E. by injection E as _ _ -> _ _ _.
  - intros a H Ha. by rewrite win_show_eq.
  - intros a H Ha. by rewrite win_hide_eq.
  - intros a H Ha. simpl. rewrite length_app. lia.
  - intros a H Ha. unfold destroy_current_tray.
    destruct (tray a); [|done]. simpl. by rewrite length_alter.
Qed.

(** X16.  Every tray ever created, destroyed or not, keeps its show and its
    hide listener on the window: in every reachable state the window has as
    many show listeners, and as many hide listeners, as trays were created,
    and no event lowers that number. *)
Theorem tray_listeners_accumulate (env : Env) (s : SettingsStore) (vs : VencordStore)
    (evs : list Event) (ev : Event) :
  let st := run (createMainWindow env s vs) evs in
  length (on_show (w_listeners (mainWin st))) = length (trays st)
  /\ length (on_hide (w_listeners (mainWin st))) = length (trays st)
  /\ (liveTrays st <= length (trays st))%nat
  /\ (length (trays st) <= length (trays (step st ev)))%nat.
Proof.
  intros st.
  assert (H : wf st) by apply wf_reachable.
  rewrite (wf_show _ H), (wf_hide _ H), length_seq, (wf_trays_length _ H).
  repeat split.
  - unfold liveTrays. rewrite <- (wf_trays_length _ H). apply List.filter_length_le.
  - rewrite <- (wf_trays_length _ H). by apply trays_length_step.
Qed.

(** ** The Open item after a show or hide event *)

Lemma tray_var_run (st : State) (evs : list Event) :
  wf st -> is_Some (tray st) -> is_Some (tray (run st evs)).
Proof.
  apply (shape_run (fun st => is_Some (tray st))).
  - unfold shape. intros a b E. by injection E as _ _ _ -> _ _.
  - intros a H Ha. by rewrite win_show_eq.
  - intros a H Ha. by rewrite win_hide_eq.
  - intros a H Ha. by eexists.
  - intros a H Ha. unfold destroy_current_tray.
    destruct (tray a) as [t|] eqn:Et; [|by rewrite Et].
    simpl. rewrite Et. by eexists.
Qed.

Lemma tray_var_createMainWindow (env : Env) (s : SettingsStore) (vs : VencordStore) :
  nullish (s_tray s) true = true -> is_Some (tray (createMainWindow env s vs)).
Proof.
  intros E. unfold createMainWindow. rewrite E.
  destruct (truthy (s_staticTitle s)); by eexists.
Qed.

Lemma step_fires (st : State) (ev : Event) (shown : bool) :
  wf st -> menusInv st -> w_destroyed (mainWin st) = false ->
  (if shown then firesShow st ev else firesHide st ev) ->
  step st ev = if shown then win_show st else win_hide st.
Proof.
  intros H M Halive Hev. destruct shown.
  - destruct Hev as [-> | (t & tr & Ht & Hlive & Hev)].
    { unfold step. by rewrite Halive. }
    destruct (trayMenu_lookup st t tr H M Ht) as (Hmenu & Hclick & b & Hitems).
    destruct Hev as [-> | [-> Hopen]].
    + unfold step. rewrite Halive. unfold trayClick. by rewrite Ht, Hlive, Hclick.
    + rewrite (openEnabled_lookup st t b Hitems) in Hopen. injection Hopen as ->.
      unfold step. rewrite Halive. unfold trayMenuClick, menuItem.
      by rewrite Ht, Hlive, Hmenu, Hitems.
  - destruct Hev as [-> | [-> Hhide]].
    { unfold step. by rewrite Halive. }
    unfold step. rewrite Halive, requestClose_eq by done.
    unfold hidesOnClose in Hhide. by destruct (_ || _).
Qed.

(** C7.  Right after every step of a live window in which a show or a hide
    event fires (the toolkit's own show and hide, a click on a tray icon or
    on an enabled Open item, a close that is cancelled), the window is
    visible after show and hidden after hide, and the Open item of every
    tray menu built so far is enabled exactly when the window is not
    visible.  Such a menu is there to be toggled: when the tray setting was
    true or absent at construction the module's tray variable refers to a
    tray whose Open item has that value, and, as long as the tray setting
    is only assigned booleans and not true while absent, whenever the
    setting is true or absent that tray exists. *)
Theorem open_item_tracks_visibility (env : Env) (s : SettingsStore) (vs : VencordStore)
    (evs : list Event) (ev : Event) (shown : bool) :
  let st := run (createMainWindow env s vs) evs in
  w_destroyed (mainWin st) = false ->
  (if shown then firesShow st ev else firesHide st ev) ->
  let st' := step st ev in
  w_visible (mainWin st') = shown
  /\ (forall m : nat, (m < length (trayMenus st'))%nat ->
        openEnabled st' m = Some (negb (w_visible (mainWin st'))))
  /\ (forall t : nat, tray st' = Some t ->
        currentOpenEnabled st' = Some (negb (w_visible (mainWin st'))))
  /\ (nullish (s_tray s) true = true ->
        exists t : nat,
          tray st' = Some t
          /\ (t < length (trayMenus st'))%nat
          /\ currentOpenEnabled st' = Some (negb (w_visible (mainWin st'))))
  /\ (trayWritesOk (createMainWindow env s vs) evs = true ->
      trayEnabled st = true ->
        exists (t : nat) (tr : Tray),
          tray st' = Some t
          /\ trays st' !! t = Some tr
          /\ tr_destroyed tr = false
          /\ currentOpenEnabled st' = Some (negb (w_visible (mainWin st')))).
Proof.
  intros st Halive Hev st'.
  assert (H : wf st) by apply wf_reachable.
  assert (H' : wf st') by apply wf_step, H.
  assert (E : st' = if shown then win_show st else win_hide st)
    by (apply step_fires; [exact H | apply menusInv_reachable | exact Halive | exact Hev]).
  assert (Hvis : w_visible (mainWin st') = shown).
  { rewrite E. destruct shown; [by rewrite win_show_eq | by rewrite win_hide_eq]. }
  assert (Hmenus : trayMenus st' = map (alter (set_enabled (negb shown)) 0%nat) (trayMenus st)).
  { rewrite E. destruct shown; [by rewrite win_show_eq | by rewrite win_hide_eq]. }
  assert (Hdata : trays st' = trays st /\ tray st' = tray st).
  { rewrite E. destruct shown; [by rewrite win_show_eq | by rewrite win_hide_eq]. }
  destruct Hdata as [Htrays Htray].
  assert (Hall : forall m : nat, (m < length (trayMenus st'))%nat ->
                   openEnabled st' m = Some (negb shown)).
  { intros m Hm. apply (openEnabled_map _ st); [exact H | | exact Hmenus].
    by rewrite Hmenus, length_map in Hm. }
  assert (Hcur : forall t : nat, tray st' = Some t ->
                   currentOpenEnabled st' = Some (negb shown)
                   /\ (t < length (trayMenus st'))%nat).
  { intros t Ht. destruct (currentOpenEnabled_eq _ _ H' Ht) as [-> Hlt].
    split; [by apply Hall | exact Hlt]. }
  rewrite Hvis. split; [reflexivity|]. split; [exact Hall|].
  split; [intros t Ht; exact (proj1 (Hcur t Ht))|]. split.
  - intros Hs.
    destruct (tray_var_run _ evs (wf_createMainWindow env s vs)
                (tray_var_createMainWindow env s vs Hs)) as [t Ht].
    fold st in Ht. rewrite <- Htray in Ht.
    exists t. destruct (Hcur t Ht) as [Hc Hlt]. by repeat split.
  - intros Hok Hen.
    assert (Hinv : trayInv st)
      by (apply trayInv_run;
          [apply wf_createMainWindow | apply trayInv_createMainWindow | exact Hok]).
    destruct Hinv as [(_ & _ & Hoff) | (old & cur & Hl & _ & Hvar & Hd)];
      [congruence|].
    rewrite Hen in Hd. simpl in Hd.
    assert (Ht : tray st' = Some (length old)) by congruence.
    exists (length old), cur. split; [exact Ht|].
    split; [rewrite Htrays, Hl; by apply list_lookup_middle|].
    split; [exact Hd | exact (proj1 (Hcur _ Ht))].
Qed.

End MainWindow.

(** * Concrete runs

    The constants are those of Vencord Desktop (a 1280 by 720 default
    window, a 940 by 500 minimum); the runs start from empty stores on a
    platform other than Windows. *)

Local Abbreviation fresh :=
  (createMainWindow 1280 720 940 500 (mkEnv false 0 0)
     (mkSettings None None None None None None None None)
     (mkVencord None None None)).
Local Abbreviation run' := (run 940 500).
Local Abbreviation step' := (step 940 500).

(** C2 as stated fails.  With the setting absent the tray is created by
    default; assigning true creates a second tray and the first is never
    destroyed; after assigning false one tray icon still exists although the
    setting is false. *)
Lemma tray_leak_counterexample :
  let st := run' fresh [EvSetSetting KTray (Some true); EvSetSetting KTray (Some false)] in
  s_tray (Settings st) = Some false
  /\ trayEnabled st = false
  /\ liveTrays st = 1%nat
  /\ ~ trayIffEnabled st.
Proof.
  repeat split; try (vm_compute; reflexivity).
  unfold trayIffEnabled. vm_compute. intros [H _].
  specialize (H (le_n 1)). discriminate H.
Qed.

Lemma close_request_policy_witness :
  let st := run' fresh [EvShow] in
  w_destroyed (mainWin st) = false
  /\ (let st' := step' st EvClose in
      if isQuitting st
         || is_false (s_minimizeToTray (Settings st))
         || is_false (s_tray (Settings st))
      then w_destroyed (mainWin st') = true /\ st' = on_win (w_set_destroyed true) st
      else w_destroyed (mainWin st') = false
           /\ w_visible (mainWin st') = false
           /\ effects st' = effects st
           /\ isQuitting st' = isQuitting st).
Proof.
  split; [vm_compute; reflexivity|].
  apply (close_request_policy 1280 720 940 500 (mkEnv false 0 0)
           (mkSettings None None None None None None None None)
           (mkVencord None None None) [EvShow]).
  vm_compute; reflexivity.
Defined.

Lemma tray_matches_setting_witness :
  let evs := [EvSetSetting KTray (Some false); EvShow; EvSetSetting KTray (Some true)] in
  trayWritesOk 940 500 fresh evs = true
  /\ (let st := run' fresh evs in
      liveTrays st = (if trayEnabled st then 1%nat else 0%nat) /\ trayIffEnabled st).
Proof.
  split; [vm_compute; reflexivity|].
  apply (tray_matches_setting 1280 720 940 500 (mkEnv false 0 0)
           (mkSettings None None None None None None None None)
           (mkVencord None None None)
           [EvSetSetting KTray (Some false); EvShow; EvSetSetting KTray (Some true)]).
  vm_compute; reflexivity.
Defined.

Lemma disableMinSize_change_witness :
  let st := run' fresh [EvSetSetting KDisableMinSize (Some true);
                        EvResize (mkRectangle 10 20 300 200)] in
  let st' := step' st (EvSetSetting KDisableMinSize (Some false)) in
  let b := w_bounds (mainWin st) in
  let b' := w_bounds (mainWin st') in
  w_destroyed (mainWin st) = false
  /\ s_disableMinSize (Settings st) <> Some false
  /\ (w_minWidth (mainWin st') = 940 /\ w_minHeight (mainWin st') = 500
      /\ rwidth b' = Z.max (rwidth b) 940 /\ rheight b' = Z.max (rheight b) 500
      /\ rwidth b <= rwidth b' /\ rheight b <= rheight b'
      /\ rx b' = rx b /\ ry b' = ry b).
Proof.
  split; [vm_compute; reflexivity|]. split; [vm_compute; discriminate|].
  apply (disableMinSize_change 1280 720 940 500 (mkEnv false 0 0)
           (mkSettings None None None None None None None None)
           (mkVencord None None None)
           [EvSetSetting KDisableMinSize (Some true); EvResize (mkRectangle 10 20 300 200)]
           (Some false)).
  - vm_compute; reflexivity.
  - vm_compute; discriminate.
Defined.

Lemma bounds_and_state_writes_witness :
  let st := run' fresh [EvShow] in
  let r := mkRectangle 1 2 3 4 in
  w_destroyed (mainWin st) = false
  /\ (EvResize r = EvMove r \/ EvResize r = EvResize r)
  /\ (let st' := step' st (EvResize r) in
      writes st' = writes st ++ [WrWindowBounds (w_bounds (mainWin st'))]
      /\ w_bounds (mainWin st') = r
      /\ s_windowBounds (Settings st') = Some (stored_of_rect r)).
Proof.
  split; [vm_compute; reflexivity|]. split; [by right|].
  apply (bounds_and_state_writes 1280 720 940 500 (mkEnv false 0 0)
           (mkSettings None None None None None None None None)
           (mkVencord None None None) [EvShow]).
  - vm_compute; reflexivity.
  - by right.
Defined.

Lemma isQuitting_one_way_witness :
  let quit := [EvTrayMenuClick 0 5] in
  let later := [EvSetSetting KTray (Some false); EvShow] in
  isQuitting (run' fresh quit) = true
  /\ isQuitting (run' fresh (quit ++ later)) = true
  /\ EvClose <> EvBeforeQuit
  /\ quitCalls (step' (run' fresh [EvShow]) EvClose) = quitCalls (run' fresh [EvShow])
  /\ isQuitting (step' (run' fresh [EvShow]) EvClose) = isQuitting (run' fresh [EvShow]).
Proof.
  destruct (isQuitting_one_way 1280 720 940 500 (mkEnv false 0 0)
              (mkSettings None None None None None None None None)
              (mkVencord None None None))
    as (_ & Hmono & Hother).
  split; [vm_compute; reflexivity|]. split; [|split; [|split]].
  - apply (Hmono [EvTrayMenuClick 0 5]). vm_compute; reflexivity.
  - discriminate.
  - vm_compute; reflexivity.
  - apply (Hother [EvShow] EvClose); [discriminate | vm_compute; reflexivity].
Defined.

(** * Concrete runs for the further properties *)

Local Abbreviation titled :=
  (createMainWindow 1280 720 940 500 (mkEnv false 0 0)
     (mkSettings None None None (Some true) None None None None)
     (mkVencord None None None)).
Local Abbreviation tray0 := (mkTray (Some "Vencord Desktop") (Some 0%nat) [ClickShowWin] false).

Lemma static_title_stays_witness :
  let evs := [EvPageTitleUpdated "Friends"; EvSetSetting KStaticTitle (Some false);
              EvPageTitleUpdated "Inbox"] in
  truthy (Some true) = true
  /\ w_title (mainWin (run' titled evs)) = Some "Vencord".
Proof.
  split; [reflexivity|].
  apply (static_title_stays 1280 720 940 500 (mkEnv false 0 0)
           (mkSettings None None None (Some true) None None None None)
           (mkVencord None None None)).
  reflexivity.
Defined.

Lemma title_follows_page_witness :
  let st := run' fresh [EvSetSetting KStaticTitle (Some true)] in
  truthy None = false
  /\ w_destroyed (mainWin st) = false
  /\ w_title (mainWin (step' st (EvPageTitleUpdated "Friends"))) = Some "Friends".
Proof.
  split; [reflexivity|]. split; [vm_compute; reflexivity|].
  apply (title_follows_page 1280 720 940 500 (mkEnv false 0 0)
           (mkSettings None None None None None None None None)
           (mkVencord None None None) [EvSetSetting KStaticTitle (Some true)] "Friends").
  - reflexivity.
  - vm_compute; reflexivity.
Defined.

Lemma saved_bounds_round_trip_witness :
  let st := run' fresh [EvShow] in
  let r := mkRectangle 30 40 1000 700 in
  w_destroyed (mainWin st) = false
  /\ (EvResize r = EvMove r \/ EvResize r = EvResize r)
  /\ w_bounds (mainWin (createMainWindow 1280 720 940 500 (mkEnv true 5 5)
                          (Settings (step' st (EvResize r)))
                          (mkVencord None (Some true) None))) = r.
Proof.
  split; [vm_compute; reflexivity|]. split; [by right|].
  apply (saved_bounds_round_trip 1280 720 940 500 (mkEnv false 0 0)
           (mkSettings None None None None None None None None)
           (mkVencord None None None) [EvShow] (mkRectangle 30 40 1000 700)
           (EvResize (mkRectangle 30 40 1000 700)) (mkEnv true 5 5)
           (mkVencord None (Some true) None)).
  - vm_compute; reflexivity.
  - by right.
Defined.

Lemma window_state_flags_unused_witness :
  let s := mkSettings None None None None None None None None in
  (KMaximized = KMaximized \/ KMaximized = KMinimized)
  /\ createMainWindow 1280 720 940 500 (mkEnv false 0 0)
       (put_setting KMaximized (Some true) s) (mkVencord None None None)
     = set_Settings (put_setting KMaximized (Some true) s)
         (createMainWindow 1280 720 940 500 (mkEnv false 0 0) s (mkVencord None None None)).
Proof.
  split; [by left|].
  apply (window_state_flags_unused 1280 720 940 500 (mkEnv false 0 0)
           (mkSettings None None None None None None None None)
           (mkVencord None None None) KMaximized (Some true)).
  by left.
Defined.

Lemma preferences_untouched_witness :
  let st := run' fresh [EvSetSetting KMinimizeToTray (Some true); EvShow] in
  isStoreWrite EvClose = false
  /\ prefs (step' st EvClose) = prefs st.
Proof.
  split; [reflexivity|].
  apply (preferences_untouched 1280 720 940 500 (mkEnv false 0 0)
           (mkSettings None None None None None None None None)
           (mkVencord None None None)
           [EvSetSetting KMinimizeToTray (Some true); EvShow] EvClose).
  reflexivity.
Defined.

Lemma quit_then_close_witness :
  let st := run' fresh [EvShow] in
  w_destroyed (mainWin st) = false
  /\ (EvTrayMenuClick 0 4 = EvBeforeQuit
      \/ (quitCalls st < quitCalls (step' st (EvTrayMenuClick 0 4)))%nat)
  /\ w_destroyed (mainWin (step' (step' st (EvTrayMenuClick 0 4)) EvClose)) = true.
Proof.
  split; [vm_compute; reflexivity|]. split; [right; vm_compute; lia|].
  apply (quit_then_close 1280 720 940 500 (mkEnv false 0 0)
           (mkSettings None None None None None None None None)
           (mkVencord None None None) [EvShow] (EvTrayMenuClick 0 4)).
  - vm_compute; reflexivity.
  - right. vm_compute. lia.
Defined.

Lemma update_defers_quit_witness :
  let st := run' fresh [EvShow] in
  w_destroyed (mainWin st) = false
  /\ (let st1 := step' st (EvAppMenuClick 1) in
      let st2 := step' st1 EvDownloadDone in
      effects st1 = effects st ++ [EffDownload]
      /\ isQuitting st1 = isQuitting st
      /\ hidesOnClose st1 = hidesOnClose st
      /\ effects st2 = effects st ++ [EffDownload; EffRelaunch; EffQuit]
      /\ isQuitting st2 = true).
Proof.
  split; [vm_compute; reflexivity|].
  apply (update_defers_quit 1280 720 940 500 (mkEnv false 0 0)
           (mkSettings None None None None None None None None)
           (mkVencord None None None) [EvShow]).
  vm_compute; reflexivity.
Defined.

Lemma menu_mirrors_tray_witness :
  let st := run' fresh [EvShow] in
  w_destroyed (mainWin st) = false
  /\ trays st !! 0%nat = Some tray0
  /\ tr_destroyed tray0 = false
  /\ (step' st (EvTrayMenuClick 0 1) = step' st (EvAppMenuClick 0)
      /\ step' st (EvTrayMenuClick 0 2) = step' st (EvAppMenuClick 1)
      /\ step' st (EvTrayMenuClick 0 4) = step' st (EvAppMenuClick 2)
      /\ step' st (EvTrayMenuClick 0 5) = step' st (EvAppMenuClick 3)
      /\ step' st (EvTrayMenuClick 0 5) = step' st (EvAppMenuClick 4)
      /\ step' st (EvTrayMenuClick 0 5) = step' st (EvAppMenuClick 6)).
Proof.
  split; [vm_compute; reflexivity|]. split; [vm_compute; reflexivity|].
  split; [reflexivity|].
  apply (menu_mirrors_tray 1280 720 940 500 (mkEnv false 0 0)
           (mkSettings None None None None None None None None)
           (mkVencord None None None) [EvShow] 0%nat tray0).
  - vm_compute; reflexivity.
  - vm_compute; reflexivity.
  - reflexivity.
Defined.

Lemma tray_click_restores_witness :
  let st := run' fresh [EvShow] in
  w_destroyed (mainWin st) = false
  /\ hidesOnClose st = true
  /\ trays st !! 0%nat = Some tray0
  /\ tr_destroyed tray0 = false
  /\ (let st1 := step' st EvClose in
      let st2 := step' st1 (EvTrayClick 0) in
      w_destroyed (mainWin st1) = false
      /\ w_visible (mainWin st1) = false
      /\ openEnabled st1 0 = Some true
      /\ step' st1 (EvTrayMenuClick 0 0) = st2
      /\ w_destroyed (mainWin st2) = false
      /\ w_visible (mainWin st2) = true
      /\ openEnabled st2 0 = Some false).
Proof.
  split; [vm_compute; reflexivity|]. split; [vm_compute; reflexivity|].
  split; [vm_compute; reflexivity|]. split; [reflexivity|].
  apply (tray_click_restores 1280 720 940 500 (mkEnv false 0 0)
           (mkSettings None None None None None None None None)
           (mkVencord None None None) [EvShow] 0%nat tray0).
  - vm_compute; reflexivity.
  - vm_compute; reflexivity.
  - vm_compute; reflexivity.
  - reflexivity.
Defined.

Lemma recreated_tray_open_disabled_witness :
  let st := run' fresh [EvSetSetting KTray (Some false); EvHide] in
  w_destroyed (mainWin st) = false
  /\ s_tray (Settings st) <> Some true
  /\ (let st' := step' st (EvSetSetting KTray (Some true)) in
      tray st' = Some (length (trays st))
      /\ liveTrays st' = S (liveTrays st)
      /\ currentOpenEnabled st' = Some false
      /\ w_visible (mainWin st') = w_visible (mainWin st)
      /\ step' st' (EvTrayMenuClick (length (trays st)) 0) = st').
Proof.
  split; [vm_compute; reflexivity|]. split; [vm_compute; discriminate|].
  apply (recreated_tray_open_disabled 1280 720 940 500 (mkEnv false 0 0)
           (mkSettings None None None None None None None None)
           (mkVencord None None None) [EvSetSetting KTray (Some false); EvHide]).
  - vm_compute; reflexivity.
  - vm_compute; discriminate.
Defined.

Lemma hidden_window_has_tray_witness :
  let evs := [EvSetSetting KTray (Some false); EvSetSetting KTray (Some true); EvShow] in
  let st := run' fresh evs in
  trayWritesOk 940 500 fresh evs = true
  /\ w_destroyed (mainWin st) = false
  /\ hidesOnClose st = true
  /\ (let st' := step' st EvClose in
      w_destroyed (mainWin st') = false
      /\ w_visible (mainWin st') = false
      /\ liveTrays st' = 1%nat).
Proof.
  split; [vm_compute; reflexivity|]. split; [vm_compute; reflexivity|].
  split; [vm_compute; reflexivity|].
  apply (hidden_window_has_tray 1280 720 940 500 (mkEnv false 0 0)
           (mkSettings None None None None None None None None)
           (mkVencord None None None)
           [EvSetSetting KTray (Some false); EvSetSetting KTray (Some true); EvShow]).
  - vm_compute; reflexivity.
  - vm_compute; reflexivity.
  - vm_compute; reflexivity.
Defined.

Lemma open_item_tracks_visibility_witness :
  let st := run' fresh [EvShow] in
  let st' := step' st EvHide in
  w_destroyed (mainWin st) = false
  /\ firesHide st EvHide
  /\ (openEnabled st 0 = Some false
      /\ tray st' = Some 0%nat
      /\ trays st' !! 0%nat = Some tray0
      /\ length (trayMenus st') = 1%nat
      /\ w_visible (mainWin st') = false
      /\ openEnabled st' 0 = Some true
      /\ currentOpenEnabled st' = Some true)
  /\ (w_visible (mainWin st') = false
      /\ (forall m : nat, (m < length (trayMenus st'))%nat ->
            openEnabled st' m = Some (negb (w_visible (mainWin st'))))
      /\ (forall t : nat, tray st' = Some t ->
            currentOpenEnabled st' = Some (negb (w_visible (mainWin st'))))
      /\ (nullish None true = true ->
            exists t : nat,
              tray st' = Some t
              /\ (t < length (trayMenus st'))%nat
              /\ currentOpenEnabled st' = Some (negb (w_visible (mainWin st'))))
      /\ (trayWritesOk 940 500 fresh [EvShow] = true ->
          trayEnabled st = true ->
            exists (t : nat) (tr : Tray),
              tray st' = Some t
              /\ trays st' !! t = Some tr
              /\ tr_destroyed tr = false
              /\ currentOpenEnabled st' = Some (negb (w_visible (mainWin st'))))).
Proof.
  split; [vm_compute; reflexivity|]. split; [by left|].
  split; [repeat split; vm_compute; reflexivity|].
  apply (open_item_tracks_visibility 1280 720 940 500 (mkEnv false 0 0)
           (mkSettings None None None None None None None None)
           (mkVencord None None None) [EvShow] EvHide false).
  - vm_compute; reflexivity.
  - by left.
Defined.
